(** * Syringe pump driver: calibration and dispense translation

    A shallow embedding of [SyringePump]
    (backend/hardware/reagentdispenser/syringepump.py): the constructor that
    calibrates each axis and pushes two settings to the GRBL controller,
    [dispense], and [getPumpSpeedLimits].

    Python numbers are either [int] or [float].  The arithmetic of [float]
    is kept behind an interface ([FloatOps], and [FloatRepr] for printing)
    with two instances:
    - [binary64], IEEE-754 doubles through Rocq's primitive floats, with
      Python's [repr]; the concrete scenarios are evaluated on it, bit for
      bit and character for character;
    - [exactQ], exact rationals, the idealised arithmetic in which the
      algebraic laws hold (equalities "within tolerance" of rounding).
    Statements that do not depend on arithmetic laws are proved for every
    instance; statements on signs, zeros and NaN are proved on [binary64]
    from the specification of the primitive operations; a statement on
    [exactQ] says so.

    The transport is taken to accept every write.  The texts of numbers
    are total here; CPython refuses to print an int of more than 4300
    digits, a condition written [formattable] where a statement carries
    it. *)

From Stdlib Require Import ZArith QArith Qabs Qround Lia Bool List String Ascii.
From Stdlib Require Import DecimalString Floats.
From Stdlib Require Uint63.
Import ListNotations.

Local Open Scope string_scope.
Local Open Scope Z_scope.

(** ** Exceptions and results *)

(** The Python exceptions the driver's code can raise. *)
Inductive PyExn : Type :=
| KeyError (key : string)
| ZeroDivisionError
| OverflowError
| ValueError.

Inductive result (A : Type) : Type :=
| Ok (a : A)
| Raise (e : PyExn).
Arguments Ok {A} a.
Arguments Raise {A} e.

(** ** Python numbers *)

(** What the driver needs from [float].  [f_of_Z] is [float(int)] and
    [f_divZ] is true division of two ints (divisor non-zero); both are
    [None] where Python raises OverflowError.  [f_Zltb z x] and
    [f_ltbZ x z] are the exact comparisons [z < x] and [x < z] of an int
    with a float.  [f_ceil] is [math.ceil]. *)
Class FloatOps (F : Type) : Type := {
  f_of_Z : Z -> option F;
  f_divZ : Z -> Z -> option F;
  f_mul : F -> F -> F;
  f_div : F -> F -> F;
  f_abs : F -> F;
  f_is_zero : F -> bool;
  f_ltb : F -> F -> bool;
  f_Zltb : Z -> F -> bool;
  f_ltbZ : F -> Z -> bool;
  f_ceil : F -> result Z
}.

Inductive PyNum (F : Type) : Type :=
| PyInt (z : Z)
| PyFloat (x : F).
Arguments PyInt {F} z.
Arguments PyFloat {F} x.

Section Numbers.
Context {F : Type} `{FloatOps F}.

(** Conversion of an operand to [float] in mixed arithmetic. *)
Definition to_float (a : PyNum F) : result F :=
  match a with
  | PyFloat x => Ok x
  | PyInt z => match f_of_Z z with Some x => Ok x | None => Raise OverflowError end
  end.

(** [a * b] *)
Definition py_mul (a b : PyNum F) : result (PyNum F) :=
  match a, b with
  | PyInt x, PyInt y => Ok (PyInt (x * y))
  | _, _ =>
      match to_float a with
      | Raise e => Raise e
      | Ok x =>
          match to_float b with
          | Raise e => Raise e
          | Ok y => Ok (PyFloat (f_mul x y))
          end
      end
  end.

(** [a / b], true division: the result is always a float. *)
Definition py_truediv (a b : PyNum F) : result (PyNum F) :=
  match a, b with
  | PyInt x, PyInt y =>
      if y =? 0 then Raise ZeroDivisionError
      else match f_divZ x y with
           | Some q => Ok (PyFloat q)
           | None => Raise OverflowError
           end
  | _, _ =>
      match to_float a with
      | Raise e => Raise e
      | Ok x =>
          match to_float b with
          | Raise e => Raise e
          | Ok y =>
              if f_is_zero y then Raise ZeroDivisionError
              else Ok (PyFloat (f_div x y))
          end
      end
  end.

(** [abs(a)] *)
Definition py_abs (a : PyNum F) : PyNum F :=
  match a with
  | PyInt z => PyInt (Z.abs z)
  | PyFloat x => PyFloat (f_abs x)
  end.

(** [a < b]; an int and a float are compared exactly. *)
Definition py_lt (a b : PyNum F) : bool :=
  match a, b with
  | PyInt x, PyInt y => x <? y
  | PyFloat x, PyFloat y => f_ltb x y
  | PyInt x, PyFloat y => f_Zltb x y
  | PyFloat x, PyInt y => f_ltbZ x y
  end.

(** [min(a, b)]: the first argument unless the second is smaller. *)
Definition py_min (a b : PyNum F) : PyNum F :=
  if py_lt b a then b else a.

(** [math.ceil(a)] *)
Definition math_ceil (a : PyNum F) : result Z :=
  match a with
  | PyInt z => Ok z
  | PyFloat x => f_ceil x
  end.

(** Truth value of a number: zero is false. *)
Definition py_bool (a : PyNum F) : bool :=
  match a with
  | PyInt z => negb (z =? 0)
  | PyFloat x => negb (f_is_zero x)
  end.

End Numbers.

(** [str] of an int: decimal digits, with a leading minus sign.  Total:
    the limit of CPython on the number of digits is the condition
    [formattable] of the statements. *)
Definition str_int (z : Z) : string := NilZero.string_of_int (Z.to_int z).

(** ** IEEE-754 binary64 *)

Module Binary64.
(** The exact value of a finite float is [sm * 2^e]. *)
Definition signed (s : bool) (m : positive) : Z := cond_Zopp s (Zpos m).

(** [float(z)]: round to nearest even; too large raises. *)
Definition of_Z (z : Z) : option float :=
  let x := SF2Prim (binary_normalize prec emax z 0 false) in
  if is_infinity x then None else Some x.

(** [a / b] on ints is correctly rounded from the exact quotient: the
    quotient is taken with 64 bits more than the divisor has and a sticky
    last bit, then rounded once. *)
Definition divZ (a b : Z) : option float :=
  let neg := xorb (a <? 0) (b <? 0) in
  let k := 64 + Z.log2 (Z.abs b) in
  let n := Z.abs a * 2 ^ k in
  let q := n / Z.abs b in
  let sticky := if n mod Z.abs b =? 0 then 0 else 1 in
  let m := 2 * q + sticky in
  let x := SF2Prim (binary_normalize prec emax (cond_Zopp neg m) (- k - 1) neg) in
  if is_infinity x then None else Some x.

Definition Zltb (z : Z) (x : float) : bool :=
  match Prim2SF x with
  | S754_nan => false
  | S754_infinity s => negb s
  | S754_zero _ => z <? 0
  | S754_finite s m e =>
      if 0 <=? e then z <? signed s m * 2 ^ e
      else z * 2 ^ (- e) <? signed s m
  end.

Definition ltbZ (x : float) (z : Z) : bool :=
  match Prim2SF x with
  | S754_nan => false
  | S754_infinity s => s
  | S754_zero _ => 0 <? z
  | S754_finite s m e =>
      if 0 <=? e then signed s m * 2 ^ e <? z
      else signed s m <? z * 2 ^ (- e)
  end.

Definition ceil (x : float) : result Z :=
  match Prim2SF x with
  | S754_nan => Raise ValueError
  | S754_infinity _ => Raise OverflowError
  | S754_zero _ => Ok 0
  | S754_finite s m e =>
      if 0 <=? e then Ok (signed s m * 2 ^ e)
      else Ok (- ((- signed s m) / 2 ^ (- e)))
  end.

(** *** [repr] of a float

    The shortest decimal that reads back as the same float and, among
    those of that length, the nearest; in exponent notation when the value
    is at least 1e16 or below 1e-4, in fixed notation otherwise. *)

(** A finite positive float [m * 2^e] as the fraction [num / den]. *)
Definition num (m : positive) (e : Z) : Z :=
  if 0 <=? e then Zpos m * 2 ^ e else Zpos m.

Definition den (e : Z) : Z := if 0 <=? e then 1 else 2 ^ (- e).

(** [10^k <= a / b] *)
Definition pow10_le (a b k : Z) : bool :=
  if 0 <=? k then b * 10 ^ k <=? a else b <=? a * 10 ^ (- k).

(** The largest [k] with [10^k <= a / b], downwards from an estimate that
    is at most two too large. *)
Fixpoint exponent10_from (fuel : nat) (a b k : Z) : Z :=
  match fuel with
  | O => k
  | S fuel' => if pow10_le a b k then k else exponent10_from fuel' a b (k - 1)
  end.

Definition exponent10 (a b : Z) : Z :=
  exponent10_from 6 a b ((Z.log2 a - Z.log2 b) * 30103 / 100000 + 2).

(** The float nearest to [n * 10^p]. *)
Definition of_decimal (n p : Z) : option float :=
  if 0 <=? p then of_Z (n * 10 ^ p) else divZ n (10 ^ (- p)).

Definition reads_back (x : float) (n p : Z) : bool :=
  match of_decimal n p with
  | Some y => PrimFloat.eqb y x
  | None => false
  end.

(** [floor((a / b) / 10^p)] *)
Definition scaled_floor (a b p : Z) : Z :=
  if 0 <=? p then a / (b * 10 ^ p) else (a * 10 ^ (- p)) / b.

(** Is [a / b] nearer to [(lo + 1) * 10^p] than to [lo * 10^p]?  [Eq] on a
    tie. *)
Definition nearer_up (a b lo p : Z) : comparison :=
  if 0 <=? p then 2 * a ?= (2 * lo + 1) * 10 ^ p * b
  else 2 * a * 10 ^ (- p) ?= (2 * lo + 1) * b.

(** Of [lo * 10^p] and [(lo + 1) * 10^p], the one nearer to [a / b]; the
    even one on a tie. *)
Definition nearest (a b lo p : Z) : Z :=
  match nearer_up a b lo p with
  | Lt => lo
  | Gt => lo + 1
  | Eq => if Z.even lo then lo else lo + 1
  end.

(** The digits [n] and exponent [p] of the shortest decimal [n * 10^p]
    for the positive float [x = a / b], trying 1, 2, ... digits; 17 digits
    always read back. *)
Fixpoint shortest (fuel : nat) (x : float) (a b k10 digits : Z) : Z * Z :=
  let p := k10 - digits + 1 in
  let lo := scaled_floor a b p in
  match fuel with
  | O => (nearest a b lo p, p)
  | S fuel' =>
      match reads_back x lo p, reads_back x (lo + 1) p with
      | true, true => (nearest a b lo p, p)
      | true, false => (lo, p)
      | false, true => (lo + 1, p)
      | false, false => shortest fuel' x a b k10 (digits + 1)
      end
  end.

(** Drops the zeros at the end of [n], counting them into [p]. *)
Fixpoint strip_zeros (fuel : nat) (n p : Z) : Z * Z :=
  match fuel with
  | O => (n, p)
  | S fuel' =>
      if (n mod 10 =? 0) && negb (n =? 0)
      then strip_zeros fuel' (n / 10) (p + 1)
      else (n, p)
  end.

Fixpoint zeros (n : nat) : string :=
  match n with
  | O => EmptyString
  | S n' => String "0" (zeros n')
  end.

(** The digits [ds], with the decimal point after the first [decpt] of
    them. *)
Definition fixed_notation (ds : string) (decpt : Z) : string :=
  let nd := Z.of_nat (String.length ds) in
  if decpt <=? 0 then "0." ++ zeros (Z.to_nat (- decpt)) ++ ds
  else if decpt <? nd then
    substring 0 (Z.to_nat decpt) ds ++ "."
      ++ substring (Z.to_nat decpt) (Z.to_nat (nd - decpt)) ds
  else ds ++ zeros (Z.to_nat (decpt - nd)) ++ ".0".

Definition exponent_notation (ds : string) (decpt : Z) : string :=
  let nd := String.length ds in
  let e := decpt - 1 in
  let mantissa :=
    match nd with
    | S (S _) => substring 0 1 ds ++ "." ++ substring 1 (nd - 1) ds
    | _ => ds
    end in
  let edigits := str_int (Z.abs e) in
  mantissa ++ "e" ++ (if e <? 0 then "-" else "+")
    ++ (if Z.abs e <? 10 then "0" else "") ++ edigits.

Definition repr_positive (x : float) (m : positive) (e : Z) : string :=
  let a := num m e in
  let b := den e in
  let '(n, p) := shortest 16 x a b (exponent10 a b) 1 in
  let '(n', p') := strip_zeros 20 n p in
  let ds := str_int n' in
  let decpt := Z.of_nat (String.length ds) + p' in
  if (decpt <=? -4) || (16 <? decpt) then exponent_notation ds decpt
  else fixed_notation ds decpt.

Definition repr (x : float) : string :=
  match Prim2SF x with
  | S754_nan => "nan"
  | S754_infinity s => if s then "-inf" else "inf"
  | S754_zero s => if s then "-0.0" else "0.0"
  | S754_finite s m e =>
      (if s then "-" else "") ++ repr_positive (PrimFloat.abs x) m e
  end.
End Binary64.

#[export] Instance binary64 : FloatOps float := {
  f_of_Z := Binary64.of_Z;
  f_divZ := Binary64.divZ;
  f_mul := PrimFloat.mul;
  f_div := PrimFloat.div;
  f_abs := PrimFloat.abs;
  f_is_zero := PrimFloat.is_zero;
  f_ltb := PrimFloat.ltb;
  f_Zltb := Binary64.Zltb;
  f_ltbZ := Binary64.ltbZ;
  f_ceil := Binary64.ceil
}.

(** ** Exact rational arithmetic *)

Module ExactQ.
Definition ltb (a b : Q) : bool := negb (Qle_bool b a).

(** An exact rational prints as its reduced fraction, [n/d], or [n] when
    it is whole.  No statement below depends on this choice. *)
Definition repr (q : Q) : string :=
  let r := Qred q in
  if Zpos (Qden r) =? 1 then str_int (Qnum r)
  else str_int (Qnum r) ++ "/" ++ str_int (Zpos (Qden r)).
End ExactQ.

#[export] Instance exactQ : FloatOps Q := {
  f_of_Z := fun z => Some (inject_Z z);
  f_divZ := fun a b => Some (inject_Z a / inject_Z b)%Q;
  f_mul := Qmult;
  f_div := Qdiv;
  f_abs := Qabs;
  f_is_zero := fun q => Qeq_bool q 0;
  f_ltb := ExactQ.ltb;
  f_Zltb := fun z q => ExactQ.ltb (inject_Z z) q;
  f_ltbZ := fun q z => ExactQ.ltb q (inject_Z z);
  f_ceil := fun q => Ok (Qceiling q)
}.

(** ** Text of numbers *)

(** The line feed that ends every command. *)
Definition LF : string := String "010"%char EmptyString.

(** [repr] of a float, which [format] splices into the commands. *)
Class FloatRepr (F : Type) : Type := float_repr : F -> string.

#[export] Instance binary64_repr : FloatRepr float := Binary64.repr.

#[export] Instance exactQ_repr : FloatRepr Q := ExactQ.repr.

Definition py_str {F} `{FloatRepr F} (a : PyNum F) : string :=
  match a with
  | PyInt z => str_int z
  | PyFloat x => float_repr x
  end.

(** ** Dictionaries *)

(** A [dict] keeps its items in insertion order; keys are unique. *)
Definition dict (V : Type) : Type := list (string * V).

Fixpoint dict_get {V} (k : string) (d : dict V) : option V :=
  match d with
  | [] => None
  | (k', v) :: d' => if String.eqb k k' then Some v else dict_get k d'
  end.

(** [d[k] = v]: replaces in place, or appends a new item. *)
Fixpoint dict_set {V} (k : string) (v : V) (d : dict V) : dict V :=
  match d with
  | [] => [(k, v)]
  | (k', v') :: d' =>
      if String.eqb k k' then (k', v) :: d' else (k', v') :: dict_set k v d'
  end.

(** [d[k]]: raises KeyError on a missing key. *)
Definition subscript {V} (d : dict V) (k : string) : result V :=
  match dict_get k d with
  | Some v => Ok v
  | None => Raise (KeyError k)
  end.

Definition keys {V} (d : dict V) : list string := map fst d.

(** ** The serial line and the monad of the driver *)

(** The state of [grblSer]: the commands written so far, oldest first. *)
Definition Serial : Type := list string.

(** A computation reads and extends the serial line and either returns or
    raises; what was written before an exception stays written. *)
Definition M (A : Type) : Type := Serial -> result A * Serial.

Definition ret {A} (a : A) : M A := fun s => (Ok a, s).

Definition bind {A B} (m : M A) (k : A -> M B) : M B :=
  fun s =>
    match m s with
    | (Ok a, s') => k a s'
    | (Raise e, s') => (Raise e, s')
    end.

Definition lift {A} (r : result A) : M A := fun s => (r, s).

Notation "x <- m ;; k" := (bind m (fun x => k))
  (at level 61, m at next level, right associativity).
Notation "m ;;; k" := (bind m (fun _ => k))
  (at level 61, right associativity).

(** Modelled from the spec: [grblWrite] is defined in the base class
    [ReagentDispenser] (hardware/reagentdispenser/base.py), which is not
    among the sources.  The spec describes it as one outbound protocol
    write of the given newline-terminated text, fire-and-forget. *)
Definition grblWrite (command : string) : M unit :=
  fun s => (Ok tt, (s ++ [command])%list).

(** ** The driver *)

Record AxisConfig (F : Type) : Type := {
  mmPerRev : PyNum F;
  stepsPerRev : PyNum F;
  mmPerml : PyNum F;
  maxmmPerMin : PyNum F
}.

Record SpeedLimits (F : Type) : Type := {
  minSpeed : PyNum F;
  maxSpeed : PyNum F
}.

Arguments mmPerRev {F} _.
Arguments stepsPerRev {F} _.
Arguments mmPerml {F} _.
Arguments maxmmPerMin {F} _.
Arguments minSpeed {F} _.
Arguments maxSpeed {F} _.

Module SyringePump.
(** The constructor's argument. *)
Record reagent_dispenser_config (F : Type) : Type := {
  arduinoPort : string;
  config_syringePumpsConfig : dict (AxisConfig F)
}.

(** The instance: [self.syringePumpsConfig] and [self.axisMinmmPerMin];
    [self.grblSer] is the serial line threaded by [M]. *)
Record t (F : Type) : Type := {
  syringePumpsConfig : dict (AxisConfig F);
  axisMinmmPerMin : dict Z
}.

Arguments arduinoPort {F} _.
Arguments config_syringePumpsConfig {F} _.
Arguments syringePumpsConfig {F} _.
Arguments axisMinmmPerMin {F} _.

Definition axisToCNCID : dict string := [("X", "0"); ("Y", "1"); ("Z", "2")].

Section Methods.
Context {F : Type} {ops : FloatOps F} {R : FloatRepr F}.

(** One iteration of the constructor's loop over the axes. *)
Definition init_axis (axisMin : dict Z) (axis : string)
    (syringeConfig : AxisConfig F) : M (dict Z) :=
  stepsPerMM <- lift (py_truediv (stepsPerRev syringeConfig)
                                 (mmPerRev syringeConfig)) ;;
  q <- lift (py_truediv (PyInt 30) stepsPerMM) ;;
  p <- lift (py_mul q (PyInt 120)) ;;
  c <- lift (math_ceil p) ;;
  let axisMin' := dict_set axis c axisMin in
  id <- lift (subscript axisToCNCID axis) ;;
  grblWrite ("$10" ++ id ++ "=" ++ py_str stepsPerMM ++ LF) ;;;
  id' <- lift (subscript axisToCNCID axis) ;;
  grblWrite ("$11" ++ id' ++ "=" ++ py_str (maxmmPerMin syringeConfig) ++ LF) ;;;
  ret axisMin'.

Fixpoint init_loop (items : dict (AxisConfig F)) (axisMin : dict Z)
    : M (dict Z) :=
  match items with
  | [] => ret axisMin
  | (axis, syringeConfig) :: rest =>
      axisMin' <- init_axis axisMin axis syringeConfig ;;
      init_loop rest axisMin'
  end.

(** [SyringePump(reagent_dispenser_config)].  Getting the logger and
    opening the serial port leave the modelled state unchanged. *)
Definition __init__ (config : reagent_dispenser_config F) : M (t F) :=
  axisMin <- init_loop (config_syringePumpsConfig config) [] ;;
  ret {| syringePumpsConfig := config_syringePumpsConfig config;
         axisMinmmPerMin := axisMin |}.

(** The motion command of [dispense]. *)
Definition motion_command (pumpId : string) (totalmm dispenseSpeed : PyNum F)
    : string :=
  "G91 G1 " ++ pumpId ++ py_str totalmm ++ " F" ++ py_str dispenseSpeed ++ LF.

(** The requested rate, [(volume / duration) * 60 * mmPerml]. *)
Definition requested_rate (volume duration mmPerml : PyNum F)
    : result (PyNum F) :=
  match py_truediv volume duration with
  | Raise e => Raise e
  | Ok q =>
      match py_mul q (PyInt 60) with
      | Raise e => Raise e
      | Ok r => py_mul r mmPerml
      end
  end.

(** The feed rate chosen by [dispense] (lines 86-88).  [if duration:] is
    false for [None] and for a zero duration. *)
Definition dispense_speed (volume : PyNum F) (duration : option (PyNum F))
    (mmPerml maxmmPerMin : PyNum F) : result (PyNum F) :=
  match duration with
  | Some d =>
      if py_bool d then
        match requested_rate volume d mmPerml with
        | Raise e => Raise e
        | Ok rate => Ok (py_min rate maxmmPerMin)
        end
      else Ok maxmmPerMin
  | None => Ok maxmmPerMin
  end.

(** [self.dispense(pumpId, volume, duration)].  The two logger calls only
    format their arguments. *)
Definition dispense (self : t F) (pumpId : string) (volume : PyNum F)
    (duration : option (PyNum F)) : M (PyNum F) :=
  c <- lift (subscript (syringePumpsConfig self) pumpId) ;;
  let maxmmPerMin := maxmmPerMin c in
  c' <- lift (subscript (syringePumpsConfig self) pumpId) ;;
  let mmPerml := mmPerml c' in
  dispenseSpeed <- lift (dispense_speed volume duration mmPerml maxmmPerMin) ;;
  totalmm <- lift (py_mul volume mmPerml) ;;
  let command := motion_command pumpId totalmm dispenseSpeed in
  grblWrite command ;;;
  perSecond <- lift (py_truediv dispenseSpeed (PyInt 60)) ;;
  dispenseTime <- lift (py_truediv (py_abs totalmm) perSecond) ;;
  ret dispenseTime.

Definition getPumpSpeedLimits (self : t F) (pumpId : string)
    : M (SpeedLimits F) :=
  c <- lift (subscript (syringePumpsConfig self) pumpId) ;;
  c' <- lift (subscript (syringePumpsConfig self) pumpId) ;;
  a <- lift (py_truediv (maxmmPerMin c) (mmPerml c')) ;;
  maxSpeed <- lift (py_truediv a (PyInt 60)) ;;
  m <- lift (subscript (axisMinmmPerMin self) pumpId) ;;
  c'' <- lift (subscript (syringePumpsConfig self) pumpId) ;;
  b <- lift (py_truediv (PyInt m) (mmPerml c'')) ;;
  minSpeed <- lift (py_truediv b (PyInt 60)) ;;
  ret {| minSpeed := minSpeed; maxSpeed := maxSpeed |}.
End Methods.
End SyringePump.

(** ** Scenario 1: one axis [X] *)

Definition axisX (F : Type) : AxisConfig F :=
  {| mmPerRev := PyInt 8;
     stepsPerRev := PyInt 200;
     mmPerml := PyInt 50;
     maxmmPerMin := PyInt 500 |}.

Definition scenario1 (F : Type) : SyringePump.reagent_dispenser_config F :=
  {| SyringePump.arduinoPort := "/dev/ttyACM0";
     SyringePump.config_syringePumpsConfig := [("X", axisX F)] |}.

(** The instance the constructor builds in scenario 1. *)
Definition pump1 (F : Type) : SyringePump.t F :=
  {| SyringePump.syringePumpsConfig := [("X", axisX F)];
     SyringePump.axisMinmmPerMin := [("X", 144)] |}.

(** ** Derived notions used by the statements *)

(** The rational value of a number in exact arithmetic. *)
Definition num_val (a : PyNum Q) : Q :=
  match a with
  | PyInt z => inject_Z z
  | PyFloat q => q
  end.

(** The two directives of one axis: steps per mm, then maximum feed rate. *)
Definition calibration_writes {F} `{FloatRepr F} (id : string)
    (stepsPerMM maxmmPerMin : PyNum F) : list string :=
  ["$10" ++ id ++ "=" ++ py_str stepsPerMM ++ LF;
   "$11" ++ id ++ "=" ++ py_str maxmmPerMin ++ LF].

(** What the constructor writes for one item of the configuration, when
    its iteration succeeds. *)
Definition axis_directives {F} `{FloatOps F} `{FloatRepr F}
    (item : string * AxisConfig F) : list string :=
  match dict_get (fst item) SyringePump.axisToCNCID,
        py_truediv (stepsPerRev (snd item)) (mmPerRev (snd item)) with
  | Some id, Ok stepsPerMM =>
      calibration_writes id stepsPerMM (maxmmPerMin (snd item))
  | _, _ => []
  end.

(** The floor feed rate of one axis, [ceil((30 / stepsPerMM) * 120)]. *)
Definition min_feed {F} `{FloatOps F} (stepsPerMM : PyNum F) : result Z :=
  match py_truediv (PyInt 30) stepsPerMM with
  | Raise e => Raise e
  | Ok q =>
      match py_mul q (PyInt 120) with
      | Raise e => Raise e
      | Ok p => math_ceil p
      end
  end.

(** "Construction fails before any protocol write": whatever the state
    of the serial line, the constructor raises and the line is as it was. *)
Definition fails_closed {F} `{FloatOps F} `{FloatRepr F}
    (config : SyringePump.reagent_dispenser_config F) : Prop :=
  forall s : Serial,
    exists e, SyringePump.__init__ config s = (Raise e, s).

(** "The call raises and performs no transport write". *)
Definition rejects_volume {F} `{FloatOps F} `{FloatRepr F}
    (self : SyringePump.t F) (pumpId : string) (volume : PyNum F)
    (duration : option (PyNum F)) : Prop :=
  forall s : Serial,
    exists e, SyringePump.dispense self pumpId volume duration s = (Raise e, s).


(** Scenario 1 with a negative ceiling. *)
Definition config_negative_ceiling (F : Type)
    : SyringePump.reagent_dispenser_config F :=
  {| SyringePump.arduinoPort := "/dev/ttyACM0";
     SyringePump.config_syringePumpsConfig :=
       [("X", {| mmPerRev := PyInt 8; stepsPerRev := PyInt 200;
                 mmPerml := PyInt 0; maxmmPerMin := PyInt (-500) |})] |}.

(** Scenario 1 with a ceiling that is not a number. *)
Definition config_nan_ceiling : SyringePump.reagent_dispenser_config float :=
  {| SyringePump.arduinoPort := "/dev/ttyACM0";
     SyringePump.config_syringePumpsConfig :=
       [("X", {| mmPerRev := PyInt 8; stepsPerRev := PyInt 200;
                 mmPerml := PyInt 50; maxmmPerMin := PyFloat nan |})] |}.

(** Scenario 1 followed by an axis [Y] whose mmPerRev is zero. *)
Definition config_zero_pitch (F : Type)
    : SyringePump.reagent_dispenser_config F :=
  {| SyringePump.arduinoPort := "/dev/ttyACM0";
     SyringePump.config_syringePumpsConfig :=
       [("X", axisX F);
        ("Y", {| mmPerRev := PyInt 0; stepsPerRev := PyInt 200;
                 mmPerml := PyInt 50; maxmmPerMin := PyInt 500 |})] |}.

(** The same axis with another mmPerml. *)
Definition with_mmPerml {F} (m : PyNum F) (c : AxisConfig F) : AxisConfig F :=
  {| mmPerRev := mmPerRev c;
     stepsPerRev := stepsPerRev c;
     mmPerml := m;
     maxmmPerMin := maxmmPerMin c |}.

(** A configuration with the mmPerml of every axis replaced. *)
Definition replace_mmPerml {F} (f : string -> AxisConfig F -> PyNum F)
    (config : SyringePump.reagent_dispenser_config F)
    : SyringePump.reagent_dispenser_config F :=
  {| SyringePump.arduinoPort := SyringePump.arduinoPort config;
     SyringePump.config_syringePumpsConfig :=
       map (fun item => (fst item, with_mmPerml (f (fst item) (snd item)) (snd item)))
           (SyringePump.config_syringePumpsConfig config) |}.

(** ** Notions used by the statements on text and on signs *)

(** A number whose text CPython builds: [str] of an int of more than 4300
    decimal digits raises ValueError (the default limit on int to str
    conversion); a float always has a text.  [str_int] has no such limit,
    so a statement that a directive or a command is written carries this
    condition on the ints it formats. *)
Definition formattable {F} (a : PyNum F) : Prop :=
  match a with
  | PyInt z => Z.abs z < 10 ^ 4300
  | PyFloat _ => True
  end.

(** The same axis with another maxmmPerMin. *)
Definition with_maxmmPerMin {F} (m : PyNum F) (c : AxisConfig F)
    : AxisConfig F :=
  {| mmPerRev := mmPerRev c;
     stepsPerRev := stepsPerRev c;
     mmPerml := mmPerml c;
     maxmmPerMin := m |}.

(** A configuration with the maxmmPerMin of every axis replaced. *)
Definition replace_maxmmPerMin {F} (f : string -> AxisConfig F -> PyNum F)
    (config : SyringePump.reagent_dispenser_config F)
    : SyringePump.reagent_dispenser_config F :=
  {| SyringePump.arduinoPort := SyringePump.arduinoPort config;
     SyringePump.config_syringePumpsConfig :=
       map (fun item =>
              (fst item, with_maxmmPerMin (f (fst item) (snd item)) (snd item)))
           (SyringePump.config_syringePumpsConfig config) |}.

(** Two runs of the constructor that end the same way: both return, with
    the same floors, or both raise, the same exception; and both have made
    the same number of writes. *)
Definition same_outcome {F} (r' r : result (SyringePump.t F) * Serial) : Prop :=
  match r', r with
  | (Ok self', s1'), (Ok self, s1) =>
      SyringePump.axisMinmmPerMin self' = SyringePump.axisMinmmPerMin self /\
      List.length s1' = List.length s1
  | (Raise e', s1'), (Raise e, s1) => e' = e /\ List.length s1' = List.length s1
  | _, _ => False
  end.

(** A double is NaN or has the sign [s] ([true] is negative). *)
Definition sign_class (s : bool) (f : spec_float) : Prop :=
  match f with
  | S754_nan => True
  | S754_zero s' | S754_infinity s' | S754_finite s' _ _ => s' = s
  end.

(** A double is a zero or NaN. *)
Definition zero_or_nan (f : spec_float) : Prop :=
  match f with
  | S754_zero _ | S754_nan => True
  | _ => False
  end.

(** An int that is not negative, or a double that is NaN or has its sign
    bit clear. *)
Definition nonneg (a : PyNum float) : Prop :=
  match a with
  | PyInt z => 0 <= z
  | PyFloat x => sign_class false (Prim2SF x)
  end.

(** [-a] *)
Definition py_neg (a : PyNum float) : PyNum float :=
  match a with
  | PyInt z => PyInt (- z)
  | PyFloat x => PyFloat (- x)%float
  end.



(** "The call completes normally". *)
Definition completes_normally {F} `{FloatOps F} `{FloatRepr F}
    (self : SyringePump.t F) (pumpId : string) (volume : PyNum F)
    (duration : option (PyNum F)) : Prop :=
  forall s : Serial,
    exists t s', SyringePump.dispense self pumpId volume duration s = (Ok t, s').

(** One axis [X] with the given parameters. *)
Definition one_axis {F} (c : AxisConfig F)
    : SyringePump.reagent_dispenser_config F :=
  {| SyringePump.arduinoPort := "/dev/ttyACM0";
     SyringePump.config_syringePumpsConfig := [("X", c)] |}.


(** Scenario 1 with mmPerRev [-8]. *)
Definition axis_negative_pitch : AxisConfig float :=
  {| mmPerRev := PyInt (-8);
     stepsPerRev := PyInt 200;
     mmPerml := PyInt 50;
     maxmmPerMin := PyInt 500 |}.


(** Scenario 1 with maxmmPerMin [0], and with maxmmPerMin [5e-324], the
    smallest positive double. *)
Definition axis_zero_ceiling : AxisConfig float :=
  {| mmPerRev := PyInt 8;
     stepsPerRev := PyInt 200;
     mmPerml := PyInt 50;
     maxmmPerMin := PyInt 0 |}.

Definition axis_tiny_ceiling : AxisConfig float :=
  {| mmPerRev := PyInt 8;
     stepsPerRev := PyInt 200;
     mmPerml := PyInt 50;
     maxmmPerMin := PyFloat 0x1p-1074%float |}.

(** The instance with one axis [X] and the floor of scenario 1. *)
Definition pump_of (c : AxisConfig float) : SyringePump.t float :=
  {| SyringePump.syringePumpsConfig := [("X", c)];
     SyringePump.axisMinmmPerMin := [("X", 144)] |}.

(** * Properties *)

(** ** Running the monad *)

Lemma bind_inv A B (m : M A) (k : A -> M B) s b s' :
  bind m k s = (Ok b, s') ->
  exists a s1, m s = (Ok a, s1) /\ k a s1 = (Ok b, s').
Proof.
  unfold bind. destruct (m s) as [[a | e] s1]; intros E.
  - exists a, s1. split; [reflexivity | exact E].
  - discriminate E.
Qed.

Lemma bind_ok A B (m : M A) (k : A -> M B) s a s1 :
  m s = (Ok a, s1) -> bind m k s = k a s1.
Proof. intros E. unfold bind. rewrite E. reflexivity. Qed.

Lemma bind_raise A B (m : M A) (k : A -> M B) s e s1 :
  m s = (Raise e, s1) -> bind m k s = (Raise e, s1).
Proof. intros E. unfold bind. rewrite E. reflexivity. Qed.

(** ** Dictionaries *)

Lemma dict_get_None V (k : string) (d : dict V) :
  dict_get k d = None <-> ~ In k (keys d).
Proof.
  induction d as [| [k' v] d IH]; simpl.
  - split; [intros _ [] | reflexivity].
  - destruct (String.eqb_spec k k') as [-> | Hne].
    + split; [discriminate | intros Hn; exfalso; apply Hn; left; reflexivity].
    + rewrite IH. split.
      * intros Hn [Heq | Hin]; [apply Hne; symmetry; exact Heq | exact (Hn Hin)].
      * intros Hn Hin. apply Hn. right. exact Hin.
Qed.

Lemma dict_get_In V (k : string) (d : dict V) :
  In k (keys d) -> exists v, dict_get k d = Some v.
Proof.
  intros Hin. destruct (dict_get k d) as [v |] eqn:E.
  - exists v. reflexivity.
  - apply dict_get_None in E. contradiction.
Qed.



Lemma dict_set_keys V (k k0 : string) (v : V) (d : dict V) :
  In k0 (keys (dict_set k v d)) <-> k0 = k \/ In k0 (keys d).
Proof.
  induction d as [| [k' v'] d IH]; simpl.
  - split; [intros [E | []]; left; symmetry; exact E
           | intros [E | []]; left; symmetry; exact E].
  - destruct (String.eqb_spec k k') as [-> | Hne]; simpl.
    + split; [intros H; right; exact H | intros [E | H]; [left; symmetry; exact E | exact H]].
    + rewrite IH. split.
      * intros [E | [E | H]]; [right; left; exact E | left; exact E | right; right; exact H].
      * intros [E | [E | H]]; [right; left; exact E | left; exact E | right; right; exact H].
Qed.

(** ** Unknown axis *)

Lemma unknown_axis_raises
    {F : Type} {ops : FloatOps F} {R : FloatRepr F}
    (self : SyringePump.t F) (pumpId : string) (volume : PyNum F)
    (duration : option (PyNum F)) (s : Serial) :
  ~ In pumpId (keys (SyringePump.syringePumpsConfig self)) ->
  SyringePump.dispense self pumpId volume duration s
    = (Raise (KeyError pumpId), s).
Proof.
  intros Habsent. apply dict_get_None in Habsent.
  unfold SyringePump.dispense.
  apply bind_raise. unfold lift, subscript. rewrite Habsent. reflexivity.
Qed.

(** ** Exact arithmetic: the value of a number *)

Section ExactNumbers.
Local Open Scope Q_scope.

Lemma Qpos_nonzero (q : Q) : 0 < q -> ~ q == 0.
Proof. intros Hq E. rewrite E in Hq. discriminate Hq. Qed.

Lemma Qneg_nonzero (q : Q) : q < 0 -> ~ q == 0.
Proof. intros Hq E. rewrite E in Hq. discriminate Hq. Qed.

Lemma inject_Z_eq0 (z : Z) : inject_Z z == 0 <-> z = 0%Z.
Proof.
  unfold Qeq, inject_Z. simpl. split; intros E; lia.
Qed.

Lemma exact_is_zero (q : Q) : f_is_zero q = true <-> q == 0.
Proof. simpl. apply Qeq_bool_iff. Qed.

Lemma exact_truediv (a b : PyNum Q) :
  ~ num_val b == 0 ->
  exists q, py_truediv a b = Ok (PyFloat q) /\ q == num_val a / num_val b.
Proof.
  intros Hb.
  assert (Hz : forall x y : Q, ~ y == 0 ->
            exists q, (if f_is_zero y then Raise ZeroDivisionError
                       else Ok (PyFloat (f_div x y))) = Ok (PyFloat q)
                      /\ q == x / y).
  { intros x y Hy. destruct (f_is_zero y) eqn:E.
    - apply exact_is_zero in E. contradiction.
    - exists (x / y). split; reflexivity. }
  destruct a as [x | x], b as [y | y]; cbn [num_val] in Hb; simpl.
  - destruct (Z.eqb_spec y 0) as [-> | Hy].
    + exfalso. apply Hb. reflexivity.
    + exists (inject_Z x / inject_Z y). split; reflexivity.
  - apply Hz. exact Hb.
  - apply Hz. exact Hb.
  - apply Hz. exact Hb.
Qed.

Lemma exact_mul (a b : PyNum Q) :
  exists r, py_mul a b = Ok r /\ num_val r == num_val a * num_val b.
Proof.
  destruct a as [x | x], b as [y | y]; simpl.
  - exists (PyInt (x * y)). split; [reflexivity |].
    cbn [num_val]. rewrite inject_Z_mult. reflexivity.
  - exists (PyFloat (inject_Z x * y)). split; reflexivity.
  - exists (PyFloat (x * inject_Z y)). split; reflexivity.
  - exists (PyFloat (x * y)). split; reflexivity.
Qed.

Lemma exact_ltb (x y : Q) : ExactQ.ltb x y = true <-> x < y.
Proof.
  unfold ExactQ.ltb. rewrite negb_true_iff. split.
  - intros E. apply Qnot_le_lt. intros Hle.
    apply Qle_bool_iff in Hle. congruence.
  - intros Hlt. destruct (Qle_bool y x) eqn:E; [| reflexivity].
    apply Qle_bool_iff in E. exfalso. exact (Qlt_not_le _ _ Hlt E).
Qed.

Lemma exact_lt (a b : PyNum Q) : py_lt a b = true <-> num_val a < num_val b.
Proof.
  destruct a as [x | x], b as [y | y]; simpl; try apply exact_ltb.
  rewrite Z.ltb_lt, Zlt_Qlt. reflexivity.
Qed.

Lemma exact_lt_false (a b : PyNum Q) :
  py_lt a b = false <-> num_val b <= num_val a.
Proof.
  split.
  - intros E. apply Qnot_lt_le. intros Hlt. apply exact_lt in Hlt. congruence.
  - intros Hle. destruct (py_lt a b) eqn:E; [| reflexivity].
    apply exact_lt in E. exfalso. exact (Qlt_not_le _ _ E Hle).
Qed.

Lemma exact_abs (a : PyNum Q) : num_val (py_abs a) == Qabs (num_val a).
Proof. destruct a as [x | x]; simpl; reflexivity. Qed.

Lemma exact_bool (a : PyNum Q) : py_bool a = true <-> ~ num_val a == 0.
Proof.
  destruct a as [x | x]; simpl; rewrite negb_true_iff.
  - rewrite inject_Z_eq0, Z.eqb_neq. reflexivity.
  - split.
    + intros E Hq. apply Qeq_bool_iff in Hq. congruence.
    + intros Hq. destruct (Qeq_bool x 0) eqn:E; [| reflexivity].
      apply Qeq_bool_iff in E. contradiction.
Qed.

End ExactNumbers.

(** ** The shape of a dispense call *)

Section DispenseShape.
Context {F : Type} {ops : FloatOps F} {R : FloatRepr F}.

(** [dispense] on a configured axis, as one case analysis: errors in the
    feed rate or the distance come before the write, errors in the elapsed
    time (line 93) come after it. *)
Lemma dispense_run (self : SyringePump.t F) (pumpId : string)
    (c : AxisConfig F) (volume : PyNum F) (duration : option (PyNum F))
    (s : Serial) :
  dict_get pumpId (SyringePump.syringePumpsConfig self) = Some c ->
  SyringePump.dispense self pumpId volume duration s =
    match SyringePump.dispense_speed volume duration (mmPerml c) (maxmmPerMin c) with
    | Raise e => (Raise e, s)
    | Ok feed =>
        match py_mul volume (mmPerml c) with
        | Raise e => (Raise e, s)
        | Ok totalmm =>
            let s' := (s ++ [SyringePump.motion_command pumpId totalmm feed])%list in
            match py_truediv feed (PyInt 60) with
            | Raise e => (Raise e, s')
            | Ok perSecond =>
                match py_truediv (py_abs totalmm) perSecond with
                | Raise e => (Raise e, s')
                | Ok t => (Ok t, s')
                end
            end
        end
    end.
Proof.
  intros Hc. unfold SyringePump.dispense, bind, lift, subscript, grblWrite, ret.
  rewrite Hc.
  destruct (SyringePump.dispense_speed _ _ _ _) as [feed | e]; [| reflexivity].
  destruct (py_mul volume _) as [totalmm | e]; [| reflexivity].
  cbv zeta.
  destruct (py_truediv feed _) as [perSecond | e]; [| reflexivity].
  destruct (py_truediv _ perSecond) as [t | e]; reflexivity.
Qed.

(** When the distance can be computed, the command is written with the
    feed rate chosen, whatever happens on line 93. *)
Lemma dispense_writes (self : SyringePump.t F) (pumpId : string)
    (c : AxisConfig F) (volume : PyNum F) (duration : option (PyNum F))
    (s : Serial) (feed totalmm : PyNum F) :
  dict_get pumpId (SyringePump.syringePumpsConfig self) = Some c ->
  SyringePump.dispense_speed volume duration (mmPerml c) (maxmmPerMin c) = Ok feed ->
  py_mul volume (mmPerml c) = Ok totalmm ->
  snd (SyringePump.dispense self pumpId volume duration s)
    = (s ++ [SyringePump.motion_command pumpId totalmm feed])%list.
Proof.
  intros Hc Hfeed Hmm.
  rewrite (dispense_run self pumpId c volume duration s Hc), Hfeed, Hmm.
  cbv zeta.
  destruct (py_truediv feed _) as [perSecond | e]; [| reflexivity].
  destruct (py_truediv _ perSecond) as [t | e]; reflexivity.
Qed.


(** A falsy duration ([0], [0.0]) takes the branch of an absent one. *)
Lemma dispense_falsy_duration (self : SyringePump.t F) (pumpId : string)
    (volume d : PyNum F) (s : Serial) :
  py_bool d = false ->
  SyringePump.dispense self pumpId volume (Some d) s
    = SyringePump.dispense self pumpId volume None s.
Proof.
  intros Hd. unfold SyringePump.dispense, SyringePump.dispense_speed.
  rewrite Hd. reflexivity.
Qed.

(** A returning [dispense] has written exactly its motion command. *)
Lemma dispense_ok_inv (self : SyringePump.t F) (pumpId : string)
    (volume : PyNum F) (duration : option (PyNum F)) (s s' : Serial)
    (t : PyNum F) :
  SyringePump.dispense self pumpId volume duration s = (Ok t, s') ->
  exists c totalmm feed,
    dict_get pumpId (SyringePump.syringePumpsConfig self) = Some c /\
    py_mul volume (mmPerml c) = Ok totalmm /\
    SyringePump.dispense_speed volume duration (mmPerml c) (maxmmPerMin c) = Ok feed /\
    s' = (s ++ [SyringePump.motion_command pumpId totalmm feed])%list.
Proof.
  intros Hrun.
  destruct (dict_get pumpId (SyringePump.syringePumpsConfig self)) as [c |] eqn:Hc.
  - rewrite (dispense_run self pumpId c volume duration s Hc) in Hrun.
    destruct (SyringePump.dispense_speed _ _ _ _) as [feed | e] eqn:Hfeed;
      [| discriminate].
    destruct (py_mul volume _) as [totalmm | e] eqn:Hmm; [| discriminate].
    cbv zeta in Hrun.
    destruct (py_truediv feed _) as [perSecond | e]; [| discriminate].
    destruct (py_truediv _ perSecond) as [t' | e]; [| discriminate].
    inversion Hrun; subst.
    exists c, totalmm, feed. repeat split; assumption || reflexivity.
  - apply dict_get_None in Hc.
    rewrite (unknown_axis_raises self pumpId volume duration s Hc) in Hrun.
    discriminate.
Qed.

(** Whatever happens, [dispense] only appends to the serial line, and at
    most one command. *)
Lemma dispense_appends (self : SyringePump.t F) (pumpId : string)
    (volume : PyNum F) (duration : option (PyNum F)) (s : Serial) :
  exists rest,
    snd (SyringePump.dispense self pumpId volume duration s) = (s ++ rest)%list
    /\ (List.length rest <= 1)%nat.
Proof.
  destruct (dict_get pumpId (SyringePump.syringePumpsConfig self)) as [c |] eqn:Hc.
  - rewrite (dispense_run self pumpId c volume duration s Hc).
    destruct (SyringePump.dispense_speed _ _ _ _) as [feed | e];
      [| exists []; rewrite app_nil_r; split; [reflexivity | simpl; lia]].
    destruct (py_mul volume _) as [totalmm | e];
      [| exists []; rewrite app_nil_r; split; [reflexivity | simpl; lia]].
    exists [SyringePump.motion_command pumpId totalmm feed].
    split; [| simpl; lia].
    cbv zeta.
    destruct (py_truediv feed _) as [perSecond | e]; [| reflexivity].
    destruct (py_truediv _ perSecond) as [t' | e]; reflexivity.
  - apply dict_get_None in Hc.
    rewrite (unknown_axis_raises self pumpId volume duration s Hc).
    exists []. rewrite app_nil_r. split; [reflexivity | simpl; lia].
Qed.

End DispenseShape.

(** ** The shape of the constructor *)

Section InitShape.
Context {F : Type} {ops : FloatOps F} {R : FloatRepr F}.

(** One iteration, as one case analysis: the errors of the arithmetic and
    of the lookup come before its first write. *)
Lemma init_axis_run (axisMin : dict Z) (axis : string) (c : AxisConfig F)
    (s : Serial) :
  SyringePump.init_axis axisMin axis c s =
    match py_truediv (stepsPerRev c) (mmPerRev c) with
    | Raise e => (Raise e, s)
    | Ok stepsPerMM =>
        match min_feed stepsPerMM with
        | Raise e => (Raise e, s)
        | Ok m =>
            match dict_get axis SyringePump.axisToCNCID with
            | None => (Raise (KeyError axis), s)
            | Some id =>
                (Ok (dict_set axis m axisMin),
                 (s ++ calibration_writes id stepsPerMM (maxmmPerMin c))%list)
            end
        end
    end.
Proof.
  unfold SyringePump.init_axis, min_feed, bind, lift, subscript, grblWrite, ret.
  destruct (py_truediv (stepsPerRev c) _) as [stepsPerMM | e]; [| reflexivity].
  destruct (py_truediv (PyInt 30) _) as [q | e]; [| reflexivity].
  destruct (py_mul q _) as [p | e]; [| reflexivity].
  destruct (math_ceil p) as [m | e]; [| reflexivity].
  destruct (dict_get axis _) as [id |]; [| reflexivity].
  unfold calibration_writes. rewrite <- app_assoc. reflexivity.
Qed.

Lemma init_axis_ok_inv (axisMin axisMin' : dict Z) (axis : string)
    (c : AxisConfig F) (s s' : Serial) :
  SyringePump.init_axis axisMin axis c s = (Ok axisMin', s') ->
  exists id stepsPerMM m,
    dict_get axis SyringePump.axisToCNCID = Some id /\
    py_truediv (stepsPerRev c) (mmPerRev c) = Ok stepsPerMM /\
    min_feed stepsPerMM = Ok m /\
    axisMin' = dict_set axis m axisMin /\
    s' = (s ++ calibration_writes id stepsPerMM (maxmmPerMin c))%list.
Proof.
  rewrite init_axis_run.
  destruct (py_truediv (stepsPerRev c) _) as [stepsPerMM | e] eqn:E1; [| discriminate].
  destruct (min_feed stepsPerMM) as [m | e] eqn:E2; [| discriminate].
  destruct (dict_get axis _) as [id |] eqn:E3; [| discriminate].
  intros E. inversion E; subst.
  exists id, stepsPerMM, m. repeat split; assumption || reflexivity.
Qed.

Lemma axis_directives_ok (axis id : string) (c : AxisConfig F)
    (stepsPerMM : PyNum F) :
  dict_get axis SyringePump.axisToCNCID = Some id ->
  py_truediv (stepsPerRev c) (mmPerRev c) = Ok stepsPerMM ->
  axis_directives (axis, c) = calibration_writes id stepsPerMM (maxmmPerMin c).
Proof.
  intros Hid Hsteps. unfold axis_directives. cbn [fst snd].
  rewrite Hid, Hsteps. reflexivity.
Qed.

(** A completed loop has written the directives of every item, in the
    order of the items, and recorded a floor for every key. *)
Lemma init_loop_ok_inv (items : dict (AxisConfig F)) :
  forall (axisMin axisMin' : dict Z) (s s' : Serial),
    SyringePump.init_loop items axisMin s = (Ok axisMin', s') ->
    s' = (s ++ flat_map axis_directives items)%list /\
    Forall (fun item =>
              exists id stepsPerMM,
                dict_get (fst item) SyringePump.axisToCNCID = Some id /\
                py_truediv (stepsPerRev (snd item)) (mmPerRev (snd item))
                  = Ok stepsPerMM /\
                axis_directives item
                  = calibration_writes id stepsPerMM (maxmmPerMin (snd item)))
           items /\
    (forall k, In k (keys items) \/ In k (keys axisMin) ->
               In k (keys axisMin')).
Proof.
  induction items as [| [axis c] rest IH]; intros axisMin axisMin' s s' Hrun.
  - simpl in Hrun. unfold ret in Hrun. inversion Hrun; subst.
    rewrite app_nil_r. repeat split.
    + constructor.
    + intros k [[] | Hk]. exact Hk.
  - simpl in Hrun. apply bind_inv in Hrun.
    destruct Hrun as (am1 & s1 & Haxis & Hrest).
    apply init_axis_ok_inv in Haxis.
    destruct Haxis as (id & stepsPerMM & m & Hid & Hsteps & Hmin & -> & ->).
    apply IH in Hrest. destruct Hrest as (-> & Hall & Hkeys).
    pose proof (axis_directives_ok axis id c stepsPerMM Hid Hsteps) as Hdir.
    repeat split.
    + cbn [flat_map]. rewrite Hdir, <- app_assoc. reflexivity.
    + constructor; [| exact Hall].
      exists id, stepsPerMM. cbn [fst snd]. repeat split; assumption.
    + intros k Hk. apply Hkeys.
      destruct Hk as [[Heq | Hk] | Hk].
      * right. apply dict_set_keys. left. symmetry. exact Heq.
      * left. exact Hk.
      * right. apply dict_set_keys. right. exact Hk.
Qed.



End InitShape.

(** ** Dispensing in exact arithmetic *)

Section ExactDispense.
Local Open Scope Q_scope.
Context {R : FloatRepr Q}.

Lemma Q60_nonzero : ~ num_val (PyInt 60) == 0.
Proof. simpl. intros E. discriminate E. Qed.

(** With a duration that is not zero the requested rate is computed and
    capped by [min]. *)
Lemma exact_dispense_speed (volume d mmPerml maxmmPerMin : PyNum Q) :
  ~ num_val d == 0 ->
  exists rate,
    num_val rate == num_val volume / num_val d * 60 * num_val mmPerml /\
    SyringePump.dispense_speed volume (Some d) mmPerml maxmmPerMin
      = Ok (py_min rate maxmmPerMin).
Proof.
  intros Hd. unfold SyringePump.dispense_speed, SyringePump.requested_rate.
  rewrite (proj2 (exact_bool d) Hd).
  destruct (exact_truediv volume d Hd) as (q & -> & Hq).
  destruct (exact_mul (PyFloat q) (PyInt 60)) as (r & -> & Hr).
  destruct (exact_mul r mmPerml) as (rate & -> & Hrate).
  exists rate. split; [| reflexivity].
  rewrite Hrate, Hr. cbn [num_val]. rewrite Hq. reflexivity.
Qed.


Lemma exact_min_noclamp (rate maxmmPerMin : PyNum Q) :
  num_val rate <= num_val maxmmPerMin -> py_min rate maxmmPerMin = rate.
Proof.
  intros Hle. unfold py_min. rewrite (proj2 (exact_lt_false _ _) Hle). reflexivity.
Qed.

(** A feed rate that is not zero: the command is written and the elapsed
    time [abs(totalmm) / (feed / 60)] is returned. *)
Lemma exact_dispense_returns (self : SyringePump.t Q) (pumpId : string)
    (c : AxisConfig Q) (volume : PyNum Q) (duration : option (PyNum Q))
    (s : Serial) (feed : PyNum Q) :
  dict_get pumpId (SyringePump.syringePumpsConfig self) = Some c ->
  SyringePump.dispense_speed volume duration (mmPerml c) (maxmmPerMin c) = Ok feed ->
  ~ num_val feed == 0 ->
  exists totalmm t,
    SyringePump.dispense self pumpId volume duration s
      = (Ok t, (s ++ [SyringePump.motion_command pumpId totalmm feed])%list) /\
    py_mul volume (mmPerml c) = Ok totalmm /\
    num_val totalmm == num_val volume * num_val (mmPerml c) /\
    num_val t == Qabs (num_val volume * num_val (mmPerml c)) / (num_val feed / 60).
Proof.
  intros Hc Hfeed Hnz.
  rewrite (dispense_run self pumpId c volume duration s Hc), Hfeed.
  destruct (exact_mul volume (mmPerml c)) as (totalmm & Hmul & Htot).
  rewrite Hmul. cbv zeta.
  destruct (exact_truediv feed (PyInt 60) Q60_nonzero) as (q & -> & Hq).
  assert (Hq0 : ~ num_val (PyFloat q) == 0).
  { cbn [num_val]. rewrite Hq. cbn [num_val]. intros E.
    apply Hnz. apply (Qmult_inj_r _ _ (/ 60)); [intros E'; discriminate E' |].
    rewrite Qmult_0_l. exact E. }
  destruct (exact_truediv (py_abs totalmm) (PyFloat q) Hq0) as (t & -> & Ht).
  exists totalmm, (PyFloat t). repeat split; try assumption.
  cbn [num_val] in Ht |- *. rewrite Ht, exact_abs, Htot, Hq.
  cbn [num_val]. reflexivity.
Qed.

End ExactDispense.

(** ** The arithmetic of the elapsed time *)

Section ElapsedArithmetic.
Local Open Scope Q_scope.

Lemma Qmult_nonzero_l (v m : Q) : ~ v * m == 0 -> ~ v == 0.
Proof. intros H E. apply H. rewrite E. apply Qmult_0_l. Qed.

Lemma Qmult_nonzero_r (v m : Q) : ~ v * m == 0 -> ~ m == 0.
Proof. intros H E. apply H. rewrite E. apply Qmult_0_r. Qed.

(** The requested rate is [60 * (v * m) / d]. *)
Lemma rate_as_product (v d m : Q) :
  ~ d == 0 -> v / d * 60 * m == 60 * (v * m) / d.
Proof. intros Hd. field. exact Hd. Qed.

(** Travel at the requested rate, forwards: the time asked for. *)
Lemma elapsed_at_requested_rate (v d m : Q) :
  0 < d -> 0 < v * m ->
  Qabs (v * m) / (v / d * 60 * m / 60) == d.
Proof.
  intros Hd Hvm.
  pose proof (Qpos_nonzero _ Hd) as Hd0.
  pose proof (Qpos_nonzero _ Hvm) as Hvm0.
  rewrite Qabs_pos by (apply Qlt_le_weak; exact Hvm).
  pose proof (Qmult_nonzero_l v m Hvm0) as Hv0.
  pose proof (Qmult_nonzero_r v m Hvm0) as Hm0.
  field. repeat split; assumption.
Qed.

(** Travel at the requested rate, backwards: the rate is negative and so
    is the time. *)
Lemma elapsed_at_negative_rate (v d m : Q) :
  0 < d -> v * m < 0 ->
  Qabs (v * m) / (v / d * 60 * m / 60) == - d.
Proof.
  intros Hd Hvm.
  pose proof (Qpos_nonzero _ Hd) as Hd0.
  pose proof (Qneg_nonzero _ Hvm) as Hvm0.
  rewrite Qabs_neg by (apply Qlt_le_weak; exact Hvm).
  pose proof (Qmult_nonzero_l v m Hvm0) as Hv0.
  pose proof (Qmult_nonzero_r v m Hvm0) as Hm0.
  field. repeat split; assumption.
Qed.


End ElapsedArithmetic.

(** ** Feed rate and elapsed time *)

(** Without clamping, in exact arithmetic, for either direction of travel:
    the requested rate is emitted as it is; forwards the elapsed time is the
    duration, backwards both the rate and the time are negative. *)
Lemma exact_dispense_no_clamp (R : FloatRepr Q) (self : SyringePump.t Q)
    (pumpId : string) (c : AxisConfig Q) (volume d : PyNum Q) (s : Serial) :
  dict_get pumpId (SyringePump.syringePumpsConfig self) = Some c ->
  (0 < num_val (mmPerml c))%Q ->
  (0 < num_val d)%Q ->
  ~ (num_val volume == 0)%Q ->
  (num_val volume / num_val d * 60 * num_val (mmPerml c)
     < num_val (maxmmPerMin c))%Q ->
  exists totalmm feed t,
    SyringePump.dispense self pumpId volume (Some d) s
      = (Ok t, (s ++ [SyringePump.motion_command pumpId totalmm feed])%list) /\
    (num_val feed
       == num_val volume / num_val d * 60 * num_val (mmPerml c))%Q /\
    ((0 < num_val volume)%Q -> (num_val t == num_val d)%Q) /\
    ((num_val volume < 0)%Q ->
       (num_val feed < 0)%Q /\ (num_val t == - num_val d)%Q).
Proof.
  intros Hc Hm Hd Hv Hrate.
  pose proof (Qpos_nonzero _ Hd) as Hd0.
  pose proof (Qpos_nonzero _ Hm) as Hm0.
  destruct (exact_dispense_speed volume d (mmPerml c) (maxmmPerMin c) Hd0)
    as (rate & Hval & Hspeed).
  rewrite exact_min_noclamp in Hspeed
    by (rewrite Hval; apply Qlt_le_weak; exact Hrate).
  assert (Hrate0 : ~ (num_val rate == 0)%Q).
  { rewrite Hval, (rate_as_product _ _ _ Hd0). intros E.
    apply (Qmult_inj_r _ _ (num_val d) Hd0) in E.
    setoid_replace (60 * (num_val volume * num_val (mmPerml c)) / num_val d
                      * num_val d)%Q
      with (60 * (num_val volume * num_val (mmPerml c)))%Q in E
      by (field; exact Hd0).
    rewrite Qmult_0_l in E.
    apply Qmult_integral in E. destruct E as [E | E]; [discriminate E |].
    apply Qmult_integral in E. destruct E as [E | E]; contradiction. }
  destruct (exact_dispense_returns self pumpId c volume (Some d) s rate Hc Hspeed Hrate0)
    as (totalmm & t & Hrun & _ & _ & Ht).
  exists totalmm, rate, t. repeat split.
  - exact Hrun.
  - exact Hval.
  - intros Hpos. rewrite Ht, Hval.
    apply elapsed_at_requested_rate; [exact Hd |].
    apply Qmult_lt_0_compat; assumption.
  - rewrite Hval, (rate_as_product _ _ _ Hd0).
    apply Qlt_shift_div_r; [exact Hd |]. rewrite Qmult_0_l.
    setoid_replace 0%Q with (60 * 0)%Q by reflexivity.
    apply Qmult_lt_l; [reflexivity |].
    setoid_replace 0%Q with (0 * num_val (mmPerml c))%Q by (symmetry; apply Qmult_0_l).
    apply Qmult_lt_r; assumption.
  - rewrite Ht, Hval.
    apply elapsed_at_negative_rate; [exact Hd |].
    setoid_replace 0%Q with (0 * num_val (mmPerml c))%Q by (symmetry; apply Qmult_0_l).
    apply Qmult_lt_r; assumption.
Qed.

(** The no-clamp law for forward travel (positive volume): the emitted feed
    rate is the requested rate and the elapsed time is the duration. *)
Lemma dispense_no_clamp_forwards (R : FloatRepr Q) (self : SyringePump.t Q)
    (pumpId : string) (c : AxisConfig Q) (volume d : PyNum Q) (s : Serial) :
  dict_get pumpId (SyringePump.syringePumpsConfig self) = Some c ->
  (0 < num_val (mmPerml c))%Q ->
  (0 < num_val d)%Q ->
  (0 < num_val volume)%Q ->
  (num_val volume / num_val d * 60 * num_val (mmPerml c)
     < num_val (maxmmPerMin c))%Q ->
  exists totalmm feed t,
    SyringePump.dispense self pumpId volume (Some d) s
      = (Ok t, (s ++ [SyringePump.motion_command pumpId totalmm feed])%list) /\
    (num_val feed
       == num_val volume / num_val d * 60 * num_val (mmPerml c))%Q /\
    (num_val t == num_val d)%Q.
Proof.
  intros Hc Hm Hd Hv Hrate.
  pose proof (Qpos_nonzero _ Hv) as Hv0.
  destruct (exact_dispense_no_clamp R self pumpId c volume d s Hc Hm Hd Hv0 Hrate)
    as (totalmm & feed & t & Hrun & Hfeed & Hfwd & _).
  exists totalmm, feed, t. repeat split; [exact Hrun | exact Hfeed | exact (Hfwd Hv)].
Qed.

(** C1: the no-clamp law, "for every non-zero volume ... elapsedSeconds
    equal to duration", does not hold on the code for negative volumes
    (withdrawal).  The requested rate [(volume / duration) * 60 * mmPerml]
    is then negative, [min] keeps it, the command carries a negative feed
    rate, and the elapsed time is MINUS the duration although line 93 takes
    [abs(totalmm)].  First part: in exact arithmetic, for every axis with
    positive mmPerml, every negative volume and positive duration whose
    rate is below the ceiling.  Second part: binary64 evaluation of
    [dispense("X", -2, 30)] on the axis of scenario 1, which returns
    [-30.0] with feed rate [-200.0]. *)
Theorem dispense_no_clamp_backwards :
  (forall (R : FloatRepr Q) (self : SyringePump.t Q) (pumpId : string)
          (c : AxisConfig Q) (volume d : PyNum Q) (s : Serial),
     dict_get pumpId (SyringePump.syringePumpsConfig self) = Some c ->
     (0 < num_val (mmPerml c))%Q ->
     (0 < num_val d)%Q ->
     (num_val volume < 0)%Q ->
     (num_val volume / num_val d * 60 * num_val (mmPerml c)
        < num_val (maxmmPerMin c))%Q ->
     exists totalmm feed t,
       SyringePump.dispense self pumpId volume (Some d) s
         = (Ok t, (s ++ [SyringePump.motion_command pumpId totalmm feed])%list) /\
       (num_val feed
          == num_val volume / num_val d * 60 * num_val (mmPerml c))%Q /\
       (num_val feed < 0)%Q /\
       (num_val t == - num_val d)%Q) /\
  (forall s : Serial,
     SyringePump.dispense (pump1 float) "X" (PyInt (-2)) (Some (PyInt 30)) s
       = (Ok (PyFloat (-30)%float),
          (s ++ [("G91 G1 X-100 F-200.0" ++ LF)%string])%list)).
Proof.
  split.
  - intros R self pumpId c volume d s Hc Hm Hd Hv Hrate.
    pose proof (Qneg_nonzero _ Hv) as Hv0.
    destruct (exact_dispense_no_clamp R self pumpId c volume d s Hc Hm Hd Hv0 Hrate)
      as (totalmm & feed & t & Hrun & Hfeed & _ & Hbwd).
    destruct (Hbwd Hv) as [Hneg Ht].
    exists totalmm, feed, t. repeat split; assumption.
  - intros s. vm_compute. reflexivity.
Qed.

Lemma dispense_no_clamp_backwards_witness :
  exists totalmm feed t,
    SyringePump.dispense (pump1 Q) "X" (PyInt (-2)) (Some (PyInt 30)) []
      = (Ok t, [SyringePump.motion_command "X" totalmm feed]) /\
    (num_val feed == - (200 # 1))%Q /\
    (num_val t == - (30 # 1))%Q.
Proof.
  destruct (proj1 dispense_no_clamp_backwards exactQ_repr (pump1 Q) "X" (axisX Q)
              (PyInt (-2)) (PyInt 30) [])
    as (totalmm & feed & t & Hrun & Hfeed & _ & Ht);
    try reflexivity.
  exists totalmm, feed, t. repeat split.
  - exact Hrun.
  - rewrite Hfeed. reflexivity.
  - rewrite Ht. reflexivity.
Defined.




(** ** The constructed instance *)

Lemma init_ok_inv {F : Type} {ops : FloatOps F} {R : FloatRepr F}
    (config : SyringePump.reagent_dispenser_config F) (s s' : Serial)
    (self : SyringePump.t F) :
  SyringePump.__init__ config s = (Ok self, s') ->
  SyringePump.syringePumpsConfig self
    = SyringePump.config_syringePumpsConfig config /\
  s' = (s ++ flat_map axis_directives
               (SyringePump.config_syringePumpsConfig config))%list /\
  Forall (fun item =>
            exists id stepsPerMM,
              dict_get (fst item) SyringePump.axisToCNCID = Some id /\
              py_truediv (stepsPerRev (snd item)) (mmPerRev (snd item))
                = Ok stepsPerMM /\
              axis_directives item
                = calibration_writes id stepsPerMM (maxmmPerMin (snd item)))
         (SyringePump.config_syringePumpsConfig config) /\
  (forall k, In k (keys (SyringePump.config_syringePumpsConfig config)) ->
             In k (keys (SyringePump.axisMinmmPerMin self))).
Proof.
  unfold SyringePump.__init__. intros Hrun.
  apply bind_inv in Hrun. destruct Hrun as (axisMin & s1 & Hloop & Hret).
  unfold ret in Hret. inversion Hret; subst. cbn [SyringePump.syringePumpsConfig
    SyringePump.axisMinmmPerMin].
  apply init_loop_ok_inv in Hloop. destruct Hloop as (Hs & Hall & Hkeys).
  repeat split; try assumption.
  intros k Hk. apply Hkeys. left. exact Hk.
Qed.

(** ** Speed limits *)

(** [getPumpSpeedLimits] never writes. *)
Lemma getPumpSpeedLimits_pure {F : Type} {ops : FloatOps F}
    (self : SyringePump.t F) (pumpId : string) (s : Serial) :
  snd (SyringePump.getPumpSpeedLimits self pumpId s) = s.
Proof.
  unfold SyringePump.getPumpSpeedLimits, bind, lift, ret.
  repeat match goal with
         | |- context [match ?r with Ok _ => _ | Raise _ => _ end] =>
             destruct r; cbn [fst snd]; try reflexivity
         end.
Qed.

(** ... and its result does not depend on what was written. *)
Lemma getPumpSpeedLimits_reads_nothing {F : Type} {ops : FloatOps F}
    (self : SyringePump.t F) (pumpId : string) (s s' : Serial) :
  fst (SyringePump.getPumpSpeedLimits self pumpId s)
    = fst (SyringePump.getPumpSpeedLimits self pumpId s').
Proof.
  unfold SyringePump.getPumpSpeedLimits, bind, lift, ret.
  repeat match goal with
         | |- context [match ?r with Ok _ => _ | Raise _ => _ end] =>
             destruct r; cbn [fst snd]; try reflexivity
         end.
Qed.

(** C5: for an axis identifier absent from the configured (calibrated) set,
    [dispense] raises the lookup error of line 84, [KeyError] on that
    identifier (the spec's UnknownAxis), and the serial line is left as it
    was: no transport write is attempted.  Holds for every float
    arithmetic. *)
Theorem dispense_unknown_axis
    (F : Type) (ops : FloatOps F) (R : FloatRepr F)
    (self : SyringePump.t F) (pumpId : string) (volume : PyNum F)
    (duration : option (PyNum F)) (s : Serial) :
  ~ In pumpId (keys (SyringePump.syringePumpsConfig self)) ->
  SyringePump.dispense self pumpId volume duration s
    = (Raise (KeyError pumpId), s).
Proof.
  intros Habsent.
  exact (unknown_axis_raises self pumpId volume duration s Habsent).
Qed.

Lemma dispense_unknown_axis_witness :
  ~ In "W" (keys (SyringePump.syringePumpsConfig (pump1 float))) /\
  SyringePump.dispense (pump1 float) "W" (PyInt 2) None []
    = (Raise (KeyError "W"), []).
Proof.
  assert (Hw : ~ In "W" (keys (SyringePump.syringePumpsConfig (pump1 float)))).
  { simpl. intros [Heq | []]. discriminate Heq. }
  split; [exact Hw |].
  apply (dispense_unknown_axis float binary64 binary64_repr). exact Hw.
Defined.

(** ** Calibration *)

(** C7: a constructor that returns has written, for each configured axis in
    the order of the configuration, exactly two directives: steps per mm
    [$10{id}={stepsPerMM}] and then maximum feed rate
    [$11{id}={maxmmPerMin}], each ended by a line feed, where [id] is 0, 1, 2
    for X, Y, Z.  Every later [dispense] on the instance only appends to
    that, so both directives of an axis precede any motion command.  Holds
    for every float arithmetic. *)
Theorem calibration_writes_first
    (F : Type) (ops : FloatOps F) (R : FloatRepr F)
    (config : SyringePump.reagent_dispenser_config F) (s s' : Serial)
    (self : SyringePump.t F) :
  SyringePump.__init__ config s = (Ok self, s') ->
  dict_get "X" SyringePump.axisToCNCID = Some "0" /\
  dict_get "Y" SyringePump.axisToCNCID = Some "1" /\
  dict_get "Z" SyringePump.axisToCNCID = Some "2" /\
  s' = (s ++ flat_map axis_directives
               (SyringePump.config_syringePumpsConfig config))%list /\
  Forall (fun item =>
            exists id stepsPerMM,
              dict_get (fst item) SyringePump.axisToCNCID = Some id /\
              py_truediv (stepsPerRev (snd item)) (mmPerRev (snd item))
                = Ok stepsPerMM /\
              axis_directives item
                = [("$10" ++ id ++ "=" ++ py_str stepsPerMM ++ LF)%string;
                   ("$11" ++ id ++ "=" ++ py_str (maxmmPerMin (snd item)) ++ LF)%string])
         (SyringePump.config_syringePumpsConfig config) /\
  List.length s'
    = (List.length s
       + 2 * List.length (SyringePump.config_syringePumpsConfig config))%nat /\
  (forall pumpId volume duration,
     exists rest,
       snd (SyringePump.dispense self pumpId volume duration s')
         = (s ++ flat_map axis_directives
                   (SyringePump.config_syringePumpsConfig config) ++ rest)%list
       /\ (List.length rest <= 1)%nat).
Proof.
  intros Hrun. apply init_ok_inv in Hrun.
  destruct Hrun as (Hcfg & -> & Hall & Hkeys).
  repeat split; try reflexivity.
  - exact Hall.
  - rewrite length_app. f_equal. clear Hcfg Hkeys.
    induction Hall as [| item rest (id & stepsPerMM & _ & _ & Hdir) _ IH].
    + reflexivity.
    + cbn [flat_map]. rewrite length_app, IH, Hdir. simpl. lia.
  - intros pumpId volume duration.
    destruct (dispense_appends self pumpId volume duration
                (s ++ flat_map axis_directives
                        (SyringePump.config_syringePumpsConfig config))%list)
      as (rest & Hrest & Hlen).
    exists rest. rewrite Hrest, <- app_assoc. split; [reflexivity | exact Hlen].
Qed.

Lemma calibration_writes_first_witness :
  SyringePump.__init__ (scenario1 float) []
    = (Ok (pump1 float),
       [("$100=25.0" ++ LF)%string; ("$110=500" ++ LF)%string]) /\
  List.length [("$100=25.0" ++ LF)%string; ("$110=500" ++ LF)%string] = 2%nat.
Proof.
  assert (Hrun : SyringePump.__init__ (scenario1 float) []
                 = (Ok (pump1 float),
                    [("$100=25.0" ++ LF)%string; ("$110=500" ++ LF)%string]))
    by (vm_compute; reflexivity).
  split; [exact Hrun |].
  destruct (calibration_writes_first float binary64 binary64_repr
              (scenario1 float) [] _ (pump1 float) Hrun)
    as (_ & _ & _ & _ & _ & Hlen & _).
  exact Hlen.
Defined.

(** ** One motion command per call *)

(** C9: a [dispense] call that returns has made exactly one write, the
    text [G91 G1 {axis}{totalmm} F{feedRate}] ended by a line feed, with
    [totalmm = volume * mmPerml] and the feed rate chosen on lines 86-88
    (every float arithmetic).  In binary64, on the instance that the
    constructor builds for scenario 1, [dispense("X", 2, None)] writes
    exactly [G91 G1 X100 F500] and returns [12.0]. *)
Theorem dispense_single_write :
  (forall (F : Type) (ops : FloatOps F) (R : FloatRepr F)
          (self : SyringePump.t F) (pumpId : string) (volume : PyNum F)
          (duration : option (PyNum F)) (s s' : Serial) (t : PyNum F),
     SyringePump.dispense self pumpId volume duration s = (Ok t, s') ->
     exists c totalmm feed,
       dict_get pumpId (SyringePump.syringePumpsConfig self) = Some c /\
       py_mul volume (mmPerml c) = Ok totalmm /\
       SyringePump.dispense_speed volume duration (mmPerml c) (maxmmPerMin c)
         = Ok feed /\
       s' = (s ++ [("G91 G1 " ++ pumpId ++ py_str totalmm
                      ++ " F" ++ py_str feed ++ LF)%string])%list) /\
  (fst (SyringePump.__init__ (scenario1 float) []) = Ok (pump1 float) /\
   forall s : Serial,
     SyringePump.dispense (pump1 float) "X" (PyInt 2) None s
       = (Ok (PyFloat 12%float),
          (s ++ [("G91 G1 X100 F500" ++ LF)%string])%list)).
Proof.
  split.
  - intros F ops R self pumpId volume duration s s' t Hrun.
    exact (dispense_ok_inv self pumpId volume duration s s' t Hrun).
  - split; [| intros s]; vm_compute; reflexivity.
Qed.

Lemma dispense_single_write_witness :
  exists c totalmm feed,
    dict_get "X" (SyringePump.syringePumpsConfig (pump1 float)) = Some c /\
    py_mul (PyInt 2) (mmPerml c) = Ok totalmm /\
    SyringePump.dispense_speed (PyInt 2) None (mmPerml c) (maxmmPerMin c)
      = Ok feed /\
    [("G91 G1 X100 F500" ++ LF)%string]
      = [("G91 G1 " ++ "X" ++ py_str totalmm ++ " F" ++ py_str feed ++ LF)%string].
Proof.
  apply (proj1 dispense_single_write float binary64 binary64_repr (pump1 float) "X"
           (PyInt 2) None [] [("G91 G1 X100 F500" ++ LF)%string]
           (PyFloat 12%float)).
  vm_compute. reflexivity.
Defined.

(** ** Scenario 1, for every float volume *)

(** In binary64 on scenario 1, without a duration, every float volume is
    taken, whatever the printer: the command is written and
    [abs(totalmm) / (500 / 60)] is returned. *)
Lemma binary64_dispense_any_volume (R : FloatRepr float) (x : float)
    (s : Serial) :
  SyringePump.dispense (R := R) (pump1 float) "X" (PyFloat x) None s
    = (Ok (PyFloat (abs (x * 50) / 0x1.0aaaaaaaaaaabp+3)%float),
       (s ++ [SyringePump.motion_command (R := R) "X" (PyFloat (x * 50)%float)
                (PyInt 500)])%list).
Proof. vm_compute. reflexivity. Qed.

(** * Further properties of the driver *)

(** ** Which axes an instance knows *)

Lemma axisToCNCID_only (axis id : string) :
  dict_get axis SyringePump.axisToCNCID = Some id ->
  In axis ["X"; "Y"; "Z"]%string.
Proof.
  unfold SyringePump.axisToCNCID. cbn [dict_get].
  destruct (String.eqb_spec axis "X") as [-> | _]; [intros _; left; reflexivity |].
  destruct (String.eqb_spec axis "Y") as [-> | _];
    [intros _; right; left; reflexivity |].
  destruct (String.eqb_spec axis "Z") as [-> | _];
    [intros _; right; right; left; reflexivity |].
  discriminate.
Qed.

Lemma getPumpSpeedLimits_unknown {F : Type} {ops : FloatOps F}
    (self : SyringePump.t F) (pumpId : string) (s : Serial) :
  ~ In pumpId (keys (SyringePump.syringePumpsConfig self)) ->
  SyringePump.getPumpSpeedLimits self pumpId s = (Raise (KeyError pumpId), s).
Proof.
  intros Habsent. apply dict_get_None in Habsent.
  unfold SyringePump.getPumpSpeedLimits.
  apply bind_raise. unfold lift, subscript. rewrite Habsent. reflexivity.
Qed.

(** The loop records floors for the keys of its items and for no others. *)
Lemma init_loop_keys_only {F : Type} {ops : FloatOps F} {R : FloatRepr F}
    (items : dict (AxisConfig F)) :
  forall (axisMin axisMin' : dict Z) (s s' : Serial) (k : string),
    SyringePump.init_loop items axisMin s = (Ok axisMin', s') ->
    In k (keys axisMin') ->
    In k (keys items) \/ In k (keys axisMin).
Proof.
  induction items as [| [axis c] rest IH]; intros axisMin axisMin' s s' k Hrun Hk.
  - simpl in Hrun. unfold ret in Hrun. inversion Hrun; subst. right. exact Hk.
  - simpl in Hrun. apply bind_inv in Hrun.
    destruct Hrun as (am1 & s1 & Haxis & Hrest).
    apply init_axis_ok_inv in Haxis.
    destruct Haxis as (id & stepsPerMM & m & _ & _ & _ & -> & _).
    destruct (IH _ _ _ _ k Hrest Hk) as [Hin | Hin].
    + left. right. exact Hin.
    + apply dict_set_keys in Hin. destruct Hin as [-> | Hin].
      * left. left. reflexivity.
      * right. exact Hin.
Qed.

(** X1: on an instance the constructor returned, in every float
    arithmetic, the configured axes are among X, Y and Z, and [dispense] and
    [getPumpSpeedLimits] called with any other identifier raise [KeyError]
    on it and leave the serial line as it was. *)
Theorem constructed_axes_supported
    (F : Type) (ops : FloatOps F) (R : FloatRepr F)
    (config : SyringePump.reagent_dispenser_config F) (s s' : Serial)
    (self : SyringePump.t F) :
  SyringePump.__init__ config s = (Ok self, s') ->
  (forall axis, In axis (keys (SyringePump.syringePumpsConfig self)) ->
                In axis ["X"; "Y"; "Z"]%string) /\
  (forall pumpId volume duration s1,
     ~ In pumpId ["X"; "Y"; "Z"]%string ->
     SyringePump.dispense self pumpId volume duration s1
       = (Raise (KeyError pumpId), s1) /\
     SyringePump.getPumpSpeedLimits self pumpId s1
       = (Raise (KeyError pumpId), s1)).
Proof.
  intros Hrun. apply init_ok_inv in Hrun.
  destruct Hrun as (Hcfg & _ & Hall & _).
  assert (Haxes : forall axis,
             In axis (keys (SyringePump.syringePumpsConfig self)) ->
             In axis ["X"; "Y"; "Z"]%string).
  { intros axis Hin. rewrite Hcfg in Hin.
    unfold keys in Hin. apply in_map_iff in Hin.
    destruct Hin as (item & <- & Hitem).
    rewrite Forall_forall in Hall.
    destruct (Hall item Hitem) as (id & _ & Hid & _).
    exact (axisToCNCID_only _ _ Hid). }
  split; [exact Haxes |].
  intros pumpId volume duration s1 Hother.
  assert (Habsent : ~ In pumpId (keys (SyringePump.syringePumpsConfig self)))
    by (intros Hin; apply Hother; exact (Haxes _ Hin)).
  split.
  - exact (unknown_axis_raises self pumpId volume duration s1 Habsent).
  - exact (getPumpSpeedLimits_unknown self pumpId s1 Habsent).
Qed.

Lemma constructed_axes_supported_witness :
  SyringePump.__init__ (scenario1 float) []
    = (Ok (pump1 float),
       [("$100=25.0" ++ LF)%string; ("$110=500" ++ LF)%string]) /\
  SyringePump.dispense (pump1 float) "A" (PyInt 2) None []
    = (Raise (KeyError "A"), []) /\
  SyringePump.getPumpSpeedLimits (pump1 float) "A" []
    = (Raise (KeyError "A"), []).
Proof.
  assert (Hrun : SyringePump.__init__ (scenario1 float) []
                 = (Ok (pump1 float),
                    [("$100=25.0" ++ LF)%string; ("$110=500" ++ LF)%string]))
    by (vm_compute; reflexivity).
  split; [exact Hrun |].
  apply (proj2 (constructed_axes_supported float binary64 binary64_repr
                  (scenario1 float) [] _ (pump1 float) Hrun)).
  simpl. intros [E | [E | [E | []]]]; discriminate E.
Defined.

(** ** Which exceptions the operations raise *)

Section Exceptions.
Context {F : Type} {ops : FloatOps F} {R : FloatRepr F}.

Lemma to_float_errors (a : PyNum F) (e : PyExn) :
  to_float a = Raise e -> e = OverflowError.
Proof.
  destruct a as [z | x]; simpl; [| discriminate].
  destruct (f_of_Z z); [discriminate | intros E; inversion E; reflexivity].
Qed.

Lemma py_mul_errors (a b : PyNum F) (e : PyExn) :
  py_mul a b = Raise e -> e = OverflowError.
Proof.
  assert (Hmixed : forall a' b' : PyNum F,
            match to_float a' with
            | Raise e0 => Raise e0
            | Ok x =>
                match to_float b' with
                | Raise e0 => Raise e0
                | Ok y => Ok (PyFloat (f_mul x y))
                end
            end = Raise e ->
            e = OverflowError).
  { intros a' b'.
    destruct (to_float a') as [x' | e1] eqn:E1;
      [| intros E; inversion E; subst; exact (to_float_errors _ _ E1)].
    destruct (to_float b') as [y' | e2] eqn:E2;
      [| intros E; inversion E; subst; exact (to_float_errors _ _ E2)].
    discriminate. }
  unfold py_mul.
  destruct a as [x | x], b as [y | y]; try apply Hmixed.
  discriminate.
Qed.

Lemma py_truediv_errors (a b : PyNum F) (e : PyExn) :
  py_truediv a b = Raise e -> e = ZeroDivisionError \/ e = OverflowError.
Proof.
  assert (Hmixed : forall a' b' : PyNum F,
            match to_float a' with
            | Raise e0 => Raise e0
            | Ok x =>
                match to_float b' with
                | Raise e0 => Raise e0
                | Ok y => if f_is_zero y then Raise ZeroDivisionError
                          else Ok (PyFloat (f_div x y))
                end
            end = Raise e ->
            e = ZeroDivisionError \/ e = OverflowError).
  { intros a' b'.
    destruct (to_float a') as [x' | e1] eqn:E1;
      [| intros E; inversion E; subst; right; exact (to_float_errors _ _ E1)].
    destruct (to_float b') as [y' | e2] eqn:E2;
      [| intros E; inversion E; subst; right; exact (to_float_errors _ _ E2)].
    destruct (f_is_zero y'); [| discriminate].
    intros E; inversion E; left; reflexivity. }
  unfold py_truediv.
  destruct a as [x | x], b as [y | y]; try apply Hmixed.
  destruct (y =? 0); [intros E; inversion E; left; reflexivity |].
  destruct (f_divZ x y); [discriminate | intros E; inversion E; right; reflexivity].
Qed.

Lemma dispense_speed_errors (volume : PyNum F) (duration : option (PyNum F))
    (mmPerml maxmmPerMin : PyNum F) (e : PyExn) :
  SyringePump.dispense_speed volume duration mmPerml maxmmPerMin = Raise e ->
  e = ZeroDivisionError \/ e = OverflowError.
Proof.
  unfold SyringePump.dispense_speed, SyringePump.requested_rate.
  destruct duration as [d |]; [| discriminate].
  destruct (py_bool d); [| discriminate].
  destruct (py_truediv volume d) as [q | e1] eqn:E1;
    [| intros E; inversion E; subst; exact (py_truediv_errors _ _ _ E1)].
  destruct (py_mul q (PyInt 60)) as [r | e2] eqn:E2;
    [| intros E; inversion E; subst; right; exact (py_mul_errors _ _ _ E2)].
  destruct (py_mul r mmPerml) as [rate | e3] eqn:E3;
    [discriminate | intros E; inversion E; subst; right;
                    exact (py_mul_errors _ _ _ E3)].
Qed.

(** A raising [dispense]: either the axis is not configured, the error is
    [KeyError] on it and nothing was written, or the axis is configured and
    the error is arithmetic. *)
Lemma dispense_raise_inv (self : SyringePump.t F) (pumpId : string)
    (volume : PyNum F) (duration : option (PyNum F)) (s s' : Serial)
    (e : PyExn) :
  SyringePump.dispense self pumpId volume duration s = (Raise e, s') ->
  (~ In pumpId (keys (SyringePump.syringePumpsConfig self)) /\
   e = KeyError pumpId /\ s' = s) \/
  (In pumpId (keys (SyringePump.syringePumpsConfig self)) /\
   (e = ZeroDivisionError \/ e = OverflowError)).
Proof.
  intros Hrun.
  destruct (dict_get pumpId (SyringePump.syringePumpsConfig self))
    as [c |] eqn:Hc.
  - right. split.
    + destruct (in_dec string_dec pumpId
                  (keys (SyringePump.syringePumpsConfig self)))
        as [Hin | Hnin]; [exact Hin |].
      apply dict_get_None in Hnin. congruence.
    + rewrite (dispense_run self pumpId c volume duration s Hc) in Hrun.
      destruct (SyringePump.dispense_speed _ _ _ _) as [feed | e1] eqn:E1;
        [| inversion Hrun; subst; exact (dispense_speed_errors _ _ _ _ _ E1)].
      destruct (py_mul volume _) as [totalmm | e2] eqn:E2;
        [| inversion Hrun; subst; right; exact (py_mul_errors _ _ _ E2)].
      cbv zeta in Hrun.
      destruct (py_truediv feed _) as [perSecond | e3] eqn:E3;
        [| inversion Hrun; subst; exact (py_truediv_errors _ _ _ E3)].
      destruct (py_truediv _ perSecond) as [t | e4] eqn:E4;
        [discriminate | inversion Hrun; subst; exact (py_truediv_errors _ _ _ E4)].
  - left. apply dict_get_None in Hc.
    rewrite (unknown_axis_raises self pumpId volume duration s Hc) in Hrun.
    inversion Hrun; subst. repeat split. exact Hc.
Qed.

(** A raising [getPumpSpeedLimits], when every configured axis has a
    recorded floor. *)
Lemma getPumpSpeedLimits_raise_inv (self : SyringePump.t F) (pumpId : string)
    (s s' : Serial) (e : PyExn) :
  (forall k, In k (keys (SyringePump.syringePumpsConfig self)) ->
             In k (keys (SyringePump.axisMinmmPerMin self))) ->
  SyringePump.getPumpSpeedLimits self pumpId s = (Raise e, s') ->
  (~ In pumpId (keys (SyringePump.syringePumpsConfig self)) /\
   e = KeyError pumpId) \/
  (In pumpId (keys (SyringePump.syringePumpsConfig self)) /\
   (e = ZeroDivisionError \/ e = OverflowError)).
Proof.
  intros Hfloors Hrun.
  destruct (dict_get pumpId (SyringePump.syringePumpsConfig self))
    as [c |] eqn:Hc.
  - assert (Hin : In pumpId (keys (SyringePump.syringePumpsConfig self))).
    { destruct (in_dec string_dec pumpId
                  (keys (SyringePump.syringePumpsConfig self)))
        as [Hin | Hnin]; [exact Hin |].
      apply dict_get_None in Hnin. congruence. }
    right. split; [exact Hin |].
    destruct (dict_get_In _ pumpId _ (Hfloors pumpId Hin)) as (m & Hm).
    unfold SyringePump.getPumpSpeedLimits, bind, lift, subscript, ret in Hrun.
    rewrite Hc, Hm in Hrun.
    destruct (py_truediv (maxmmPerMin c) (mmPerml c)) as [a | e1] eqn:E1;
      [| inversion Hrun; subst; exact (py_truediv_errors _ _ _ E1)].
    destruct (py_truediv a (PyInt 60)) as [mx | e2] eqn:E2;
      [| inversion Hrun; subst; exact (py_truediv_errors _ _ _ E2)].
    destruct (py_truediv (PyInt m) (mmPerml c)) as [b | e3] eqn:E3;
      [| inversion Hrun; subst; exact (py_truediv_errors _ _ _ E3)].
    destruct (py_truediv b (PyInt 60)) as [mn | e4] eqn:E4;
      [discriminate | inversion Hrun; subst; exact (py_truediv_errors _ _ _ E4)].
  - left. apply dict_get_None in Hc.
    rewrite (getPumpSpeedLimits_unknown self pumpId s Hc) in Hrun.
    inversion Hrun; subst. split; [exact Hc | reflexivity].
Qed.

End Exceptions.

(** X2: on an instance the constructor returned, in every float
    arithmetic, floors are recorded for exactly the configured axes, so the
    two operations know the same axes: [getPumpSpeedLimits] raises
    [KeyError] exactly when [dispense] does, that is, exactly when the
    identifier is not configured. *)
Theorem constructed_same_axes
    (F : Type) (ops : FloatOps F) (R : FloatRepr F)
    (config : SyringePump.reagent_dispenser_config F) (s s' : Serial)
    (self : SyringePump.t F) :
  SyringePump.__init__ config s = (Ok self, s') ->
  (forall k, In k (keys (SyringePump.axisMinmmPerMin self)) <->
             In k (keys (SyringePump.syringePumpsConfig self))) /\
  (forall pumpId volume duration s1 key,
     fst (SyringePump.getPumpSpeedLimits self pumpId s1) = Raise (KeyError key)
     <-> fst (SyringePump.dispense self pumpId volume duration s1)
           = Raise (KeyError key)) /\
  (forall pumpId volume duration s1 key,
     fst (SyringePump.dispense self pumpId volume duration s1)
       = Raise (KeyError key) ->
     key = pumpId /\
     ~ In pumpId (keys (SyringePump.config_syringePumpsConfig config))).
Proof.
  intros Hrun.
  pose proof (init_ok_inv config s s' self Hrun) as (Hcfg & _ & _ & Hfwd).
  assert (Hkeys : forall k, In k (keys (SyringePump.axisMinmmPerMin self)) <->
                            In k (keys (SyringePump.syringePumpsConfig self))).
  { intros k. rewrite Hcfg. split; [| apply Hfwd].
    unfold SyringePump.__init__ in Hrun. apply bind_inv in Hrun.
    destruct Hrun as (axisMin & s1 & Hloop & Hret).
    unfold ret in Hret. inversion Hret; subst.
    cbn [SyringePump.axisMinmmPerMin]. intros Hk.
    destruct (init_loop_keys_only _ _ _ _ _ k Hloop Hk) as [Hin | []].
    exact Hin. }
  assert (Hdisp : forall pumpId volume duration s1 key,
             fst (SyringePump.dispense self pumpId volume duration s1)
               = Raise (KeyError key) ->
             key = pumpId /\
             ~ In pumpId (keys (SyringePump.syringePumpsConfig self))).
  { intros pumpId volume duration s1 key Hraise.
    destruct (SyringePump.dispense self pumpId volume duration s1)
      as [r s2] eqn:Hd. cbn [fst] in Hraise. subst r.
    destruct (dispense_raise_inv _ _ _ _ _ _ _ Hd)
      as [(Hnin & E & _) | (_ & [E | E])]; try discriminate E.
    inversion E; subst. split; [reflexivity | exact Hnin]. }
  assert (Hlim : forall pumpId s1 key,
             fst (SyringePump.getPumpSpeedLimits self pumpId s1)
               = Raise (KeyError key) ->
             key = pumpId /\
             ~ In pumpId (keys (SyringePump.syringePumpsConfig self))).
  { intros pumpId s1 key Hraise.
    destruct (SyringePump.getPumpSpeedLimits self pumpId s1)
      as [r s2] eqn:Hd. cbn [fst] in Hraise. subst r.
    destruct (getPumpSpeedLimits_raise_inv self pumpId s1 s2 _
                (fun k Hk => proj2 (Hkeys k) Hk) Hd)
      as [(Hnin & E) | (_ & [E | E])]; try discriminate E.
    inversion E; subst. split; [reflexivity | exact Hnin]. }
  split; [exact Hkeys | split].
  - intros pumpId volume duration s1 key. split; intros Hraise.
    + destruct (Hlim _ _ _ Hraise) as [-> Hnin].
      rewrite (unknown_axis_raises self pumpId volume duration s1 Hnin).
      reflexivity.
    + destruct (Hdisp _ _ _ _ _ Hraise) as [-> Hnin].
      rewrite (getPumpSpeedLimits_unknown self pumpId s1 Hnin).
      reflexivity.
  - intros pumpId volume duration s1 key Hraise.
    rewrite <- Hcfg. exact (Hdisp _ _ _ _ _ Hraise).
Qed.

Lemma constructed_same_axes_witness :
  (In "X" (keys (SyringePump.axisMinmmPerMin (pump1 float))) <->
   In "X" (keys (SyringePump.syringePumpsConfig (pump1 float)))) /\
  (fst (SyringePump.getPumpSpeedLimits (pump1 float) "Y" [])
     = Raise (KeyError "Y")
   <-> fst (SyringePump.dispense (pump1 float) "Y" (PyInt 1) None [])
         = Raise (KeyError "Y")).
Proof.
  assert (Hrun : SyringePump.__init__ (scenario1 float) []
                 = (Ok (pump1 float),
                    [("$100=25.0" ++ LF)%string; ("$110=500" ++ LF)%string]))
    by (vm_compute; reflexivity).
  destruct (constructed_same_axes float binary64 binary64_repr
              (scenario1 float) [] _ (pump1 float) Hrun)
    as (Hkeys & Hboth & _).
  split; [exact (Hkeys "X") | exact (Hboth "Y" (PyInt 1) None [] "Y")].
Defined.

(** ** The loop of the constructor, in two parts *)

Section InitFailure.
Context {F : Type} {ops : FloatOps F} {R : FloatRepr F}.

Lemma init_loop_app (good rest : dict (AxisConfig F)) :
  forall (axisMin : dict Z) (s : Serial),
    SyringePump.init_loop (good ++ rest)%list axisMin s
      = bind (SyringePump.init_loop good axisMin)
             (fun am => SyringePump.init_loop rest am) s.
Proof.
  induction good as [| [axis c] good IH]; intros axisMin s.
  - reflexivity.
  - cbn [app SyringePump.init_loop].
    destruct (SyringePump.init_axis axisMin axis c s) as [[am1 | e] s1] eqn:E.
    + rewrite (bind_ok _ _ _ _ _ _ _ E), IH.
      unfold bind at 2. unfold bind at 2. rewrite E. reflexivity.
    + rewrite (bind_raise _ _ _ _ _ _ _ E).
      unfold bind. rewrite E. reflexivity.
Qed.

End InitFailure.

Lemma axisToCNCID_unknown (axis : string) :
  ~ In axis ["X"; "Y"; "Z"]%string ->
  dict_get axis SyringePump.axisToCNCID = None.
Proof.
  intros Hother.
  destruct (dict_get axis SyringePump.axisToCNCID) as [id |] eqn:E;
    [| reflexivity].
  exfalso. apply Hother. exact (axisToCNCID_only _ _ E).
Qed.

(** ** The feed rate and the ceiling *)

Lemma SFcompare_refl_not_lt (x : spec_float) : SFltb x x = false.
Proof.
  unfold SFltb, SFcompare.
  destruct x as [s | s | | s m e]; try (destruct s; reflexivity); try reflexivity.
  rewrite Z.compare_refl, Pos.compare_refl. destruct s; reflexivity.
Qed.

Lemma binary64_ltb_irrefl (x : float) : PrimFloat.ltb x x = false.
Proof. rewrite ltb_spec. apply SFcompare_refl_not_lt. Qed.

Lemma binary64_lt_irrefl (a : PyNum float) : py_lt a a = false.
Proof.
  destruct a as [z | x]; simpl.
  - apply Z.ltb_irrefl.
  - apply binary64_ltb_irrefl.
Qed.

Lemma exact_lt_irrefl (a : PyNum Q) : py_lt a a = false.
Proof. apply exact_lt_false. apply Qle_refl. Qed.

(** With an irreflexive comparison, the feed rate chosen is never greater
    than the ceiling. *)
Lemma dispense_speed_bounded {F : Type} {ops : FloatOps F}
    (volume : PyNum F) (duration : option (PyNum F))
    (mmPerml maxmmPerMin feed : PyNum F) :
  py_lt maxmmPerMin maxmmPerMin = false ->
  SyringePump.dispense_speed volume duration mmPerml maxmmPerMin = Ok feed ->
  py_lt maxmmPerMin feed = false.
Proof.
  intros Hirr. unfold SyringePump.dispense_speed.
  destruct duration as [d |];
    [| intros E; inversion E; subst; exact Hirr].
  destruct (py_bool d); [| intros E; inversion E; subst; exact Hirr].
  destruct (SyringePump.requested_rate volume d mmPerml) as [rate | e];
    [| discriminate].
  unfold py_min. destruct (py_lt maxmmPerMin rate) eqn:Hlt;
    intros E; inversion E; subst; [exact Hirr | exact Hlt].
Qed.

(** In exact arithmetic a feed rate is always chosen. *)
Lemma exact_dispense_speed_total (volume : PyNum Q)
    (duration : option (PyNum Q)) (mmPerml maxmmPerMin : PyNum Q) :
  exists feed,
    SyringePump.dispense_speed volume duration mmPerml maxmmPerMin = Ok feed.
Proof.
  destruct duration as [d |]; [| eexists; reflexivity].
  destruct (py_bool d) eqn:Hd.
  - apply exact_bool in Hd.
    destruct (exact_dispense_speed volume d mmPerml maxmmPerMin Hd)
      as (rate & _ & Hspeed).
    eexists. exact Hspeed.
  - unfold SyringePump.dispense_speed. rewrite Hd. eexists. reflexivity.
Qed.

(** What [dispense] leaves on the serial line on a configured axis:
    nothing, when the feed rate or the distance could not be computed, or
    its one command. *)
Lemma dispense_written {F : Type} {ops : FloatOps F} {R : FloatRepr F}
    (self : SyringePump.t F) (pumpId : string) (c : AxisConfig F)
    (volume : PyNum F) (duration : option (PyNum F)) (s : Serial) :
  dict_get pumpId (SyringePump.syringePumpsConfig self) = Some c ->
  (snd (SyringePump.dispense self pumpId volume duration s) = s /\
   exists e, fst (SyringePump.dispense self pumpId volume duration s) = Raise e) \/
  exists totalmm feed,
    SyringePump.dispense_speed volume duration (mmPerml c) (maxmmPerMin c)
      = Ok feed /\
    py_mul volume (mmPerml c) = Ok totalmm /\
    snd (SyringePump.dispense self pumpId volume duration s)
      = (s ++ [SyringePump.motion_command pumpId totalmm feed])%list.
Proof.
  intros Hc.
  destruct (SyringePump.dispense_speed volume duration (mmPerml c)
              (maxmmPerMin c)) as [feed | e] eqn:Hfeed.
  - destruct (py_mul volume (mmPerml c)) as [totalmm | e] eqn:Hmul.
    + right. exists totalmm, feed. repeat split.
      exact (dispense_writes self pumpId c volume duration s feed totalmm
               Hc Hfeed Hmul).
    + left. rewrite (dispense_run self pumpId c volume duration s Hc),
        Hfeed, Hmul.
      split; [reflexivity | exists e; reflexivity].
  - left. rewrite (dispense_run self pumpId c volume duration s Hc), Hfeed.
    split; [reflexivity | exists e; reflexivity].
Qed.

(** X7: the ceiling is never exceeded.  On a configured axis, whatever the
    volume and the duration, a call of [dispense] either writes nothing (and
    raises) or writes one motion command whose feed rate is not greater than
    [maxmmPerMin]: in binary64 the comparison [maxmmPerMin < feed] is false,
    in exact arithmetic [feed <= maxmmPerMin]. *)
Theorem feed_rate_never_above_ceiling :
  (forall (self : SyringePump.t float) (pumpId : string)
          (c : AxisConfig float) (volume : PyNum float)
          (duration : option (PyNum float)) (s : Serial),
     dict_get pumpId (SyringePump.syringePumpsConfig self) = Some c ->
     (snd (SyringePump.dispense self pumpId volume duration s) = s /\
      exists e,
        fst (SyringePump.dispense self pumpId volume duration s) = Raise e) \/
     exists totalmm feed,
       snd (SyringePump.dispense self pumpId volume duration s)
         = (s ++ [SyringePump.motion_command pumpId totalmm feed])%list /\
       py_lt (maxmmPerMin c) feed = false) /\
  (forall (R : FloatRepr Q) (self : SyringePump.t Q) (pumpId : string)
          (c : AxisConfig Q) (volume : PyNum Q)
          (duration : option (PyNum Q)) (s : Serial),
     dict_get pumpId (SyringePump.syringePumpsConfig self) = Some c ->
     exists totalmm feed,
       snd (SyringePump.dispense self pumpId volume duration s)
         = (s ++ [SyringePump.motion_command pumpId totalmm feed])%list /\
       (num_val feed <= num_val (maxmmPerMin c))%Q).
Proof.
  split.
  - intros self pumpId c volume duration s Hc.
    destruct (dispense_written self pumpId c volume duration s Hc)
      as [Hnothing | (totalmm & feed & Hfeed & _ & Hsnd)].
    + left. exact Hnothing.
    + right. exists totalmm, feed. split; [exact Hsnd |].
      exact (dispense_speed_bounded volume duration (mmPerml c)
               (maxmmPerMin c) feed (binary64_lt_irrefl _) Hfeed).
  - intros R self pumpId c volume duration s Hc.
    destruct (exact_dispense_speed_total volume duration (mmPerml c)
                (maxmmPerMin c)) as (feed & Hfeed).
    destruct (exact_mul volume (mmPerml c)) as (totalmm & Hmul & _).
    exists totalmm, feed. split.
    + exact (dispense_writes self pumpId c volume duration s feed totalmm
               Hc Hfeed Hmul).
    + apply exact_lt_false.
      exact (dispense_speed_bounded volume duration (mmPerml c)
               (maxmmPerMin c) feed (exact_lt_irrefl _) Hfeed).
Qed.

Lemma feed_rate_never_above_ceiling_witness :
  ((snd (SyringePump.dispense (pump1 float) "X" (PyInt 2) (Some (PyInt 1)) [])
      = [] /\
    exists e,
      fst (SyringePump.dispense (pump1 float) "X" (PyInt 2) (Some (PyInt 1)) [])
        = Raise e) \/
   exists totalmm feed,
     snd (SyringePump.dispense (pump1 float) "X" (PyInt 2) (Some (PyInt 1)) [])
       = ([] ++ [SyringePump.motion_command "X" totalmm feed])%list /\
     py_lt (maxmmPerMin (axisX float)) feed = false) /\
  (exists totalmm feed,
     snd (SyringePump.dispense (pump1 Q) "X" (PyInt 2) (Some (PyInt 1)) [])
       = ([] ++ [SyringePump.motion_command "X" totalmm feed])%list /\
     (num_val feed <= num_val (maxmmPerMin (axisX Q)))%Q).
Proof.
  split.
  - apply (proj1 feed_rate_never_above_ceiling (pump1 float) "X" (axisX float)
             (PyInt 2) (Some (PyInt 1)) []).
    reflexivity.
  - apply (proj2 feed_rate_never_above_ceiling exactQ_repr (pump1 Q) "X"
             (axisX Q) (PyInt 2) (Some (PyInt 1)) []).
    reflexivity.
Defined.

(** X8: [dispense] depends on the axis only through its mmPerml and its
    maxmmPerMin.  In every float arithmetic, two instances whose
    configurations of an axis agree on these two values give the same
    result and write the same command, whatever their mmPerRev, their
    stepsPerRev and the floors they recorded: the floor [minMmPerMin] is
    never consulted. *)
Theorem dispense_ignores_floor
    (F : Type) (ops : FloatOps F) (R : FloatRepr F)
    (self1 self2 : SyringePump.t F) (pumpId : string) (c1 c2 : AxisConfig F)
    (volume : PyNum F) (duration : option (PyNum F)) (s : Serial) :
  dict_get pumpId (SyringePump.syringePumpsConfig self1) = Some c1 ->
  dict_get pumpId (SyringePump.syringePumpsConfig self2) = Some c2 ->
  mmPerml c1 = mmPerml c2 ->
  maxmmPerMin c1 = maxmmPerMin c2 ->
  SyringePump.dispense self1 pumpId volume duration s
    = SyringePump.dispense self2 pumpId volume duration s.
Proof.
  intros Hc1 Hc2 Hml Hmax.
  rewrite (dispense_run self1 pumpId c1 volume duration s Hc1).
  rewrite (dispense_run self2 pumpId c2 volume duration s Hc2).
  rewrite Hml, Hmax. reflexivity.
Qed.

Lemma dispense_ignores_floor_witness :
  SyringePump.dispense (pump1 float) "X" (PyInt 1) (Some (PyInt 3600)) []
    = SyringePump.dispense
        {| SyringePump.syringePumpsConfig :=
             [("X", {| mmPerRev := PyInt 1; stepsPerRev := PyInt 3200;
                       mmPerml := PyInt 50; maxmmPerMin := PyInt 500 |})];
           SyringePump.axisMinmmPerMin := [("X", 2)] |}
        "X" (PyInt 1) (Some (PyInt 3600)) [].
Proof.
  apply (dispense_ignores_floor float binary64 binary64_repr (pump1 float) _
           "X" (axisX float)
           {| mmPerRev := PyInt 1; stepsPerRev := PyInt 3200;
              mmPerml := PyInt 50; maxmmPerMin := PyInt 500 |});
    reflexivity.
Defined.

(** ** What the operations never touch *)

(** X15: [getPumpSpeedLimits] never writes.  In every float arithmetic,
    for every instance and identifier, whether it returns or raises, the
    serial line is left as it was, and the outcome is the same from every
    state of the line. *)
Theorem speed_limits_never_write
    (F : Type) (ops : FloatOps F) (self : SyringePump.t F)
    (pumpId : string) (s s' : Serial) :
  snd (SyringePump.getPumpSpeedLimits self pumpId s) = s /\
  fst (SyringePump.getPumpSpeedLimits self pumpId s)
    = fst (SyringePump.getPumpSpeedLimits self pumpId s').
Proof.
  split.
  - apply getPumpSpeedLimits_pure.
  - apply getPumpSpeedLimits_reads_nothing.
Qed.

Lemma init_loop_ignores_mmPerml {F : Type} {ops : FloatOps F}
    {R : FloatRepr F} (f : string -> AxisConfig F -> PyNum F)
    (items : dict (AxisConfig F)) :
  forall (axisMin : dict Z) (s : Serial),
    SyringePump.init_loop
      (map (fun item => (fst item, with_mmPerml (f (fst item) (snd item)) (snd item)))
           items) axisMin s
      = SyringePump.init_loop items axisMin s.
Proof.
  induction items as [| [axis c] rest IH]; intros axisMin s.
  - reflexivity.
  - cbn [map fst snd SyringePump.init_loop].
    unfold bind.
    change (SyringePump.init_axis axisMin axis (with_mmPerml (f axis c) c) s)
      with (SyringePump.init_axis axisMin axis c s).
    destruct (SyringePump.init_axis axisMin axis c s) as [[am1 | e] s1];
      [apply IH | reflexivity].
Qed.

(** X16: the constructor never reads mmPerml.  In every float arithmetic,
    replacing the mmPerml of every axis of a configuration by any values
    changes neither what the constructor writes, nor whether it returns or
    which error it raises, nor the floors it records; a bad mmPerml shows
    only when [dispense] or [getPumpSpeedLimits] is called. *)
Theorem construction_ignores_mmPerml
    (F : Type) (ops : FloatOps F) (R : FloatRepr F)
    (f : string -> AxisConfig F -> PyNum F)
    (config : SyringePump.reagent_dispenser_config F) (s : Serial) :
  snd (SyringePump.__init__ (replace_mmPerml f config) s)
    = snd (SyringePump.__init__ config s) /\
  match SyringePump.__init__ (replace_mmPerml f config) s,
        SyringePump.__init__ config s with
  | (Ok self', _), (Ok self, _) =>
      SyringePump.axisMinmmPerMin self' = SyringePump.axisMinmmPerMin self /\
      keys (SyringePump.syringePumpsConfig self')
        = keys (SyringePump.syringePumpsConfig self)
  | (Raise e', _), (Raise e, _) => e' = e
  | _, _ => False
  end.
Proof.
  unfold SyringePump.__init__, replace_mmPerml, bind, ret.
  cbn [SyringePump.config_syringePumpsConfig].
  rewrite init_loop_ignores_mmPerml.
  destruct (SyringePump.init_loop
              (SyringePump.config_syringePumpsConfig config) [] s)
    as [[axisMin | e] s1]; cbn [fst snd].
  - split; [reflexivity |].
    cbn [SyringePump.axisMinmmPerMin SyringePump.syringePumpsConfig].
    split; [reflexivity |].
    unfold keys. rewrite map_map. reflexivity.
  - split; reflexivity.
Qed.

(** * Properties that hold in IEEE double arithmetic *)

(** ** Signs *)

Section Binary64Signs.

Lemma round_aux_sign (s : bool) (m e : Z) (l : location) :
  sign_class s (binary_round_aux prec emax s m e l).
Proof.
  unfold binary_round_aux.
  destruct (shr_fexp prec emax m e l) as [mrs' e'].
  destruct (shr_fexp prec emax _ e' loc_Exact) as [mrs'' e''].
  destruct (shr_m mrs'') as [| p | p]; simpl; auto.
  match goal with |- context [if ?b then _ else _] => destruct b end;
    simpl; auto.
Qed.

Lemma round_sign (s : bool) (m : positive) (e : Z) :
  sign_class s (binary_round prec emax s m e).
Proof.
  unfold binary_round.
  destruct (shl_align m e _) as [mz ez]. apply round_aux_sign.
Qed.


Lemma SFdiv_sign sx sy x y :
  sign_class sx x -> sign_class sy y ->
  sign_class (xorb sx sy) (SFdiv prec emax x y).
Proof.
  destruct x, y; simpl; intros; subst; auto.
  destruct (SFdiv_core_binary _ _ _ _ _ _) as [[mz ez] lz]. apply round_aux_sign.
Qed.

Lemma SFopp_sign s x : sign_class s x -> sign_class (negb s) (SFopp x).
Proof. destruct x; simpl; intros; subst; auto. Qed.

Lemma SF2Prim_sign (s : bool) (y : spec_float) :
  sign_class s y -> sign_class s (Prim2SF (SF2Prim y)).
Proof.
  destruct y as [s' | s' | | s' m e]; simpl; intros Hs; subst.
  - destruct s; vm_compute; reflexivity.
  - destruct s; vm_compute; reflexivity.
  - vm_compute. exact I.
  - assert (Hf : sign_class false
                   (Prim2SF (Z.ldexp (of_uint63 (Uint63.of_Z (Zpos m))) e))).
    { unfold Z.ldexp. rewrite ldshiftexp_spec, of_uint63_spec.
      set (n := Uint63Axioms.to_Z _).
      assert (Hn : 0 <= n) by (subst n; apply Uint63.to_Z_bounded).
      destruct n as [| p | p]; simpl.
      - reflexivity.
      - unfold SFldexp.
        pose proof (round_sign false p 0) as Hr.
        destruct (binary_round prec emax false p 0); simpl in *; auto.
        subst. apply round_sign.
      - lia. }
    destruct s.
    + rewrite FloatAxioms.opp_spec. apply (SFopp_sign false). exact Hf.
    + exact Hf.
Qed.

Lemma of_Z_nonneg (z : Z) (x : float) :
  0 <= z -> Binary64.of_Z z = Some x -> sign_class false (Prim2SF x).
Proof.
  unfold Binary64.of_Z. intros Hz.
  destruct (is_infinity _); [discriminate |].
  intros E. inversion E; subst. apply SF2Prim_sign.
  destruct z as [| p | p]; simpl; try reflexivity; [apply round_sign | lia].
Qed.

Lemma divZ_nonneg (a b : Z) (x : float) :
  0 <= a -> 0 <= b -> Binary64.divZ a b = Some x ->
  sign_class false (Prim2SF x).
Proof.
  unfold Binary64.divZ. intros Ha Hb.
  replace (a <? 0) with false by (symmetry; apply Z.ltb_ge; exact Ha).
  replace (b <? 0) with false by (symmetry; apply Z.ltb_ge; exact Hb).
  cbn [xorb cond_Zopp].
  set (k := 64 + Z.log2 (Z.abs b)).
  set (n := Z.abs a * 2 ^ k).
  set (m := 2 * (n / Z.abs b) + _).
  destruct (is_infinity _); [discriminate |].
  intros E. inversion E; subst x. apply SF2Prim_sign.
  assert (Hm : 0 <= m).
  { subst m.
    assert (0 <= n / Z.abs b).
    { destruct (Z.eq_dec (Z.abs b) 0) as [E0 | N0].
      - rewrite E0, Z.div_0_r. lia.
      - apply Z.div_pos; [| lia].
        subst n. apply Z.mul_nonneg_nonneg; [lia |].
        apply Z.pow_nonneg. lia. }
    destruct (n mod Z.abs b =? 0); lia. }
  destruct m as [| p | p]; simpl; try reflexivity; [apply round_sign | lia].
Qed.

Lemma to_float_nonneg (a : PyNum float) (x : float) :
  nonneg a -> to_float a = Ok x -> sign_class false (Prim2SF x).
Proof.
  destruct a as [z | y]; simpl; intros Ha E.
  - destruct (Binary64.of_Z z) as [x' |] eqn:Ez; [| discriminate].
    inversion E; subst. exact (of_Z_nonneg z x Ha Ez).
  - inversion E; subst. exact Ha.
Qed.

Lemma truediv_nonneg (a b r : PyNum float) :
  nonneg a -> nonneg b -> py_truediv a b = Ok r -> nonneg r.
Proof.
  intros Ha Hb.
  assert (Hmixed :
    match to_float a with
    | Raise e => Raise e
    | Ok x =>
        match to_float b with
        | Raise e => Raise e
        | Ok y => if f_is_zero y then Raise ZeroDivisionError
                  else Ok (PyFloat (f_div x y))
        end
    end = Ok r -> nonneg r).
  { destruct (to_float a) as [x | e] eqn:Ea; [| discriminate].
    destruct (to_float b) as [y | e] eqn:Eb; [| discriminate].
    destruct (f_is_zero y); [discriminate |].
    intros E. inversion E; subst. simpl.
    rewrite div_spec.
    apply (SFdiv_sign false false).
    - exact (to_float_nonneg a x Ha Ea).
    - exact (to_float_nonneg b y Hb Eb). }
  destruct a as [z | x], b as [w | y]; try exact Hmixed.
  simpl. destruct (w =? 0); [discriminate |].
  destruct (Binary64.divZ z w) as [q |] eqn:Eq; [| discriminate].
  intros E. inversion E; subst. simpl.
  exact (divZ_nonneg z w q Ha Hb Eq).
Qed.



Lemma positive_nonneg (a : PyNum float) :
  py_lt (PyInt 0) a = true -> nonneg a.
Proof.
  destruct a as [z | x].
  - cbn [py_lt nonneg]. intros H. apply Z.ltb_lt in H. lia.
  - change (py_lt (PyInt 0) (PyFloat x)) with (Binary64.Zltb 0 x).
    unfold nonneg, Binary64.Zltb.
    destruct (Prim2SF x) as [s | s | | s p e]; cbn [sign_class]; intros H;
      try discriminate H.
    + destruct s; [discriminate H | reflexivity].
    + destruct s; [| reflexivity]. exfalso.
      assert (Hsg : Binary64.signed true p = Z.neg p) by reflexivity.
      rewrite Hsg in H. clear Hsg.
      destruct (0 <=? e) eqn:He.
      * apply Z.ltb_lt in H.
        assert (0 <= 2 ^ e) by (apply Z.pow_nonneg; lia). nia.
      * apply Z.ltb_lt in H. lia.
Qed.


End Binary64Signs.

(** ** Zero and NaN *)

Section Binary64Zeros.

Lemma is_zero_spec (x : float) :
  is_zero x = true <-> exists s, Prim2SF x = S754_zero s.
Proof.
  unfold is_zero. rewrite eqb_spec.
  change (Prim2SF 0%float) with (S754_zero false).
  destruct (Prim2SF x) as [s | s | | s m e]; split;
    try (intros H; discriminate H);
    try (intros [s' H]; discriminate H).
  - intros _. exists s. reflexivity.
  - intros _. reflexivity.
  - destruct s; intros H; discriminate H.
  - destruct s; intros H; discriminate H.
Qed.

Lemma is_zero_nan (x : float) : Prim2SF x = S754_nan -> is_zero x = false.
Proof.
  intros Hx. destruct (is_zero x) eqn:E; [| reflexivity].
  apply is_zero_spec in E. destruct E as [s E]. congruence.
Qed.

Lemma of_Z_zero : Binary64.of_Z 0 = Some 0%float.
Proof. vm_compute. reflexivity. Qed.

(** A falsy number converts to a zero. *)
Lemma to_float_falsy (a : PyNum float) (x : float) :
  py_bool a = false -> to_float a = Ok x -> is_zero x = true.
Proof.
  destruct a as [z | y]; cbn [py_bool to_float].
  - intros Hz. apply negb_false_iff, Z.eqb_eq in Hz. subst z.
    change (f_of_Z 0) with (Binary64.of_Z 0). rewrite of_Z_zero.
    intros E. inversion E. reflexivity.
  - intros Hy E. inversion E; subst. apply negb_false_iff in Hy. exact Hy.
Qed.

(** Dividing by zero raises: ZeroDivisionError, or OverflowError when an
    int operand does not convert. *)
Lemma truediv_by_zero (a b : PyNum float) :
  py_bool b = false ->
  exists e, py_truediv a b = Raise e /\
            (e = ZeroDivisionError \/ e = OverflowError).
Proof.
  intros Hb.
  assert (Hmixed : forall x, to_float a = Ok x \/ to_float a = Raise OverflowError ->
    exists e,
      match to_float a with
      | Raise e => Raise e
      | Ok x =>
          match to_float b with
          | Raise e => Raise e
          | Ok y => if f_is_zero y then Raise ZeroDivisionError
                    else Ok (PyFloat (f_div x y))
          end
      end = @Raise (PyNum float) e /\
      (e = ZeroDivisionError \/ e = OverflowError)).
  { intros x [Ea | Ea]; rewrite Ea.
    - destruct (to_float b) as [y | e] eqn:Eb.
      + change (f_is_zero y) with (is_zero y).
        rewrite (to_float_falsy b y Hb Eb).
        exists ZeroDivisionError. split; [reflexivity | left; reflexivity].
      + destruct b as [w | y]; cbn [to_float] in Eb.
        * destruct (f_of_Z w); inversion Eb.
          exists OverflowError. split; [reflexivity | right; reflexivity].
        * discriminate Eb.
    - exists OverflowError. split; [reflexivity | right; reflexivity]. }
  assert (Hconv : forall c : PyNum float,
            (exists x, to_float c = Ok x) \/ to_float c = Raise OverflowError).
  { intros [w | y]; cbn [to_float].
    - destruct (f_of_Z w) as [x |]; [left; exists x; reflexivity | right; reflexivity].
    - left. exists y. reflexivity. }
  destruct a as [z | x], b as [w | y].
  - cbn [py_bool] in Hb. apply negb_false_iff in Hb.
    cbn [py_truediv]. rewrite Hb.
    exists ZeroDivisionError. split; [reflexivity | left; reflexivity].
  - destruct (Hconv (PyInt z)) as [[x Ex] | Ex].
    + exact (Hmixed x (or_introl Ex)).
    + exact (Hmixed 0%float (or_intror Ex)).
  - exact (Hmixed x (or_introl eq_refl)).
  - exact (Hmixed x (or_introl eq_refl)).
Qed.

Lemma SFdiv_zero_l (x y : spec_float) :
  zero_or_nan x -> zero_or_nan (SFdiv prec emax x y).
Proof. destruct x, y; simpl; intros H; try exact I; destruct H. Qed.

Lemma SFdiv_nan_r (x : spec_float) : SFdiv prec emax x S754_nan = S754_nan.
Proof. destruct x; reflexivity. Qed.

Lemma SFmul_nan_l (y : spec_float) : SFmul prec emax S754_nan y = S754_nan.
Proof. destruct y; reflexivity. Qed.

Lemma divZ_zero_l (w : Z) (q : float) :
  w <> 0 -> Binary64.divZ 0 w = Some q -> is_zero q = true.
Proof.
  intros Hw. unfold Binary64.divZ.
  change (Z.abs 0) with 0. rewrite Z.mul_0_l.
  rewrite Z.div_0_l by lia. rewrite Z.mod_0_l by lia.
  change (0 =? 0) with true. cbv iota. change (2 * 0 + 0) with 0.
  change (0 <? 0) with false. cbn [xorb].
  destruct (w <? 0); cbn [cond_Zopp Z.opp binary_normalize SF2Prim];
    (destruct (is_infinity _); [discriminate |]);
    intros E; inversion E; vm_compute; reflexivity.
Qed.

(** A quotient with a zero dividend is a zero or NaN. *)
Lemma truediv_zero_l (a b : PyNum float) (q : float) :
  py_bool a = false -> py_truediv a b = Ok (PyFloat q) ->
  zero_or_nan (Prim2SF q).
Proof.
  intros Ha.
  assert (Hmixed :
    match to_float a with
    | Raise e => Raise e
    | Ok x =>
        match to_float b with
        | Raise e => Raise e
        | Ok y => if f_is_zero y then Raise ZeroDivisionError
                  else Ok (PyFloat (f_div x y))
        end
    end = Ok (PyFloat q) -> zero_or_nan (Prim2SF q)).
  { destruct (to_float a) as [x | e] eqn:Ea; [| discriminate].
    destruct (to_float b) as [y | e] eqn:Eb; [| discriminate].
    destruct (f_is_zero y); [discriminate |].
    intros E. inversion E; subst q.
    change (f_div x y) with (x / y)%float. rewrite div_spec.
    apply SFdiv_zero_l.
    pose proof (to_float_falsy a x Ha Ea) as Hx.
    apply is_zero_spec in Hx. destruct Hx as [s ->]. exact I. }
  destruct a as [z | x], b as [w | y]; try exact Hmixed.
  cbn [py_bool] in Ha. apply negb_false_iff, Z.eqb_eq in Ha. subst z.
  cbn [py_truediv]. destruct (w =? 0) eqn:Ew; [discriminate |].
  apply Z.eqb_neq in Ew.
  change (f_divZ 0 w) with (Binary64.divZ 0 w).
  destruct (Binary64.divZ 0 w) as [q' |] eqn:Eq; [| discriminate].
  intros E. inversion E; subst q'.
  pose proof (divZ_zero_l w q Ew Eq) as Hq.
  apply is_zero_spec in Hq. destruct Hq as [s ->]. exact I.
Qed.

Lemma truediv_float (a b r : PyNum float) :
  py_truediv a b = Ok r -> exists q, r = PyFloat q.
Proof.
  destruct a as [z | x], b as [w | y]; cbn [py_truediv to_float].
  - destruct (w =? 0); [discriminate |].
    destruct (f_divZ z w) as [q |]; [| discriminate].
    intros E. inversion E. exists q. reflexivity.
  - destruct (f_of_Z z) as [x |]; [| discriminate].
    destruct (f_is_zero y); [discriminate |].
    intros E. inversion E. eexists. reflexivity.
  - destruct (f_of_Z w) as [y |]; [| discriminate].
    destruct (f_is_zero y); [discriminate |].
    intros E. inversion E. eexists. reflexivity.
  - destruct (f_is_zero y); [discriminate |].
    intros E. inversion E. eexists. reflexivity.
Qed.

(** The floor of a steps-per-mm value that is a zero or NaN is never
    computed. *)
Lemma min_feed_zero_or_nan (steps : float) :
  zero_or_nan (Prim2SF steps) ->
  min_feed (PyFloat steps) = Raise ZeroDivisionError \/
  min_feed (PyFloat steps) = Raise ValueError.
Proof.
  intros Hs. unfold min_feed. cbn [py_truediv to_float].
  change (f_of_Z 30) with (Binary64.of_Z 30).
  assert (E30 : Binary64.of_Z 30 = Some 30%float) by (vm_compute; reflexivity).
  rewrite E30. change (f_is_zero steps) with (is_zero steps).
  destruct (Prim2SF steps) as [s | s | | s m e] eqn:Ep; try destruct Hs.
  - left. assert (Hz : is_zero steps = true)
      by (apply is_zero_spec; exists s; exact Ep).
    rewrite Hz. reflexivity.
  - right. rewrite (is_zero_nan steps Ep).
    cbn [py_mul to_float].
    change (f_of_Z 120) with (Binary64.of_Z 120).
    assert (E120 : Binary64.of_Z 120 = Some 120%float) by (vm_compute; reflexivity).
    rewrite E120. cbn [math_ceil].
    change (f_ceil ?x) with (Binary64.ceil x). unfold Binary64.ceil.
    change (f_mul ?x ?y) with (x * y)%float.
    change (f_div ?x ?y) with (x / y)%float.
    rewrite mul_spec, div_spec, Ep.
    unfold SF64div, SF64mul. rewrite SFdiv_nan_r, SFmul_nan_l. reflexivity.
Qed.

End Binary64Zeros.

(** ** Negation *)

Section Binary64Negation.

Lemma round_aux_opp (s : bool) (m e : Z) (l : location) :
  binary_round_aux prec emax (negb s) m e l
    = SFopp (binary_round_aux prec emax s m e l).
Proof.
  unfold binary_round_aux.
  destruct (shr_fexp prec emax m e l) as [mrs' e'].
  destruct (shr_fexp prec emax _ e' loc_Exact) as [mrs'' e''].
  destruct (shr_m mrs'') as [| p | p]; try reflexivity.
  match goal with |- context [if ?b then _ else _] => destruct b end;
    reflexivity.
Qed.

Lemma round_opp (s : bool) (m : positive) (e : Z) :
  binary_round prec emax (negb s) m e = SFopp (binary_round prec emax s m e).
Proof.
  unfold binary_round.
  destruct (shl_align m e _) as [mz ez]. apply round_aux_opp.
Qed.

Lemma SFmul_opp_l (x y : spec_float) :
  SFmul prec emax (SFopp x) y = SFopp (SFmul prec emax x y).
Proof.
  destruct x as [sx | sx | | sx mx ex], y as [sy | sy | | sy my ey];
    cbn [SFmul SFopp]; try reflexivity;
    try (destruct sx, sy; reflexivity).
  rewrite <- round_aux_opp. destruct sx, sy; reflexivity.
Qed.

Lemma opp_involutive (x : float) : (- - x)%float = x.
Proof.
  apply Prim2SF_inj. rewrite !FloatAxioms.opp_spec.
  destruct (Prim2SF x) as [s | s | | s m e]; cbn [SFopp];
    try rewrite negb_involutive; reflexivity.
Qed.

Lemma mul_opp_l (x y : float) : (- x * y)%float = (- (x * y))%float.
Proof.
  apply Prim2SF_inj.
  rewrite mul_spec, !FloatAxioms.opp_spec, mul_spec. apply SFmul_opp_l.
Qed.

Lemma abs_opp (x : float) : abs (- x) = abs x.
Proof.
  apply Prim2SF_inj. rewrite !abs_spec, FloatAxioms.opp_spec.
  destruct (Prim2SF x); reflexivity.
Qed.

Lemma is_infinity_opp (x : float) : is_infinity (- x) = is_infinity x.
Proof. unfold is_infinity. rewrite abs_opp. reflexivity. Qed.

Lemma SF2Prim_opp (y : spec_float) : SF2Prim (SFopp y) = (- SF2Prim y)%float.
Proof.
  destruct y as [s | s | | s m e].
  - destruct s; vm_compute; reflexivity.
  - destruct s; vm_compute; reflexivity.
  - vm_compute. reflexivity.
  - cbn [SFopp]. unfold SF2Prim.
    destruct s; cbn [negb]; [symmetry; apply opp_involutive | reflexivity].
Qed.

Lemma of_Z_opp (z : Z) :
  z <> 0 ->
  Binary64.of_Z (- z)
    = match Binary64.of_Z z with Some x => Some (- x)%float | None => None end.
Proof.
  intros Hz. unfold Binary64.of_Z.
  assert (Hn : binary_normalize prec emax (- z) 0 false
               = SFopp (binary_normalize prec emax z 0 false)).
  { destruct z as [| p | p]; [contradiction Hz; reflexivity | |];
      cbn [Z.opp binary_normalize].
    - exact (round_opp false p 0).
    - exact (round_opp true p 0). }
  rewrite Hn, SF2Prim_opp, is_infinity_opp.
  destruct (is_infinity _); reflexivity.
Qed.

(** The distances of opposite volumes are opposite: same absolute value,
    or the same exception. *)
Lemma mul_neg_abs (v m : PyNum float) :
  match py_mul (py_neg v) m, py_mul v m with
  | Ok t', Ok t => py_abs t' = py_abs t
  | Raise e', Raise e => e' = e
  | _, _ => False
  end.
Proof.
  destruct v as [z | x], m as [w | y].
  - cbn [py_neg py_mul py_abs]. f_equal.
    rewrite Z.mul_opp_l. apply Z.abs_opp.
  - destruct (Z.eq_dec z 0) as [-> | Hz].
    + cbn [py_neg Z.opp]. destruct (py_mul (PyInt 0) (PyFloat y)); reflexivity.
    + cbn [py_neg py_mul to_float].
      change (f_of_Z (- z)) with (Binary64.of_Z (- z)).
      change (f_of_Z z) with (Binary64.of_Z z).
      rewrite (of_Z_opp z Hz).
      destruct (Binary64.of_Z z) as [x |]; [| reflexivity].
      cbn [py_abs]. change (f_mul ?a ?b) with (a * b)%float.
      change (f_abs ?a) with (abs a).
      rewrite mul_opp_l, abs_opp. reflexivity.
  - cbn [py_neg py_mul to_float].
    destruct (f_of_Z w) as [y |]; [| reflexivity].
    cbn [py_abs]. change (f_mul ?a ?b) with (a * b)%float.
    change (f_abs ?a) with (abs a).
    rewrite mul_opp_l, abs_opp. reflexivity.
  - cbn [py_neg py_mul to_float py_abs].
    change (f_mul ?a ?b) with (a * b)%float.
    change (f_abs ?a) with (abs a).
    rewrite mul_opp_l, abs_opp. reflexivity.
Qed.

End Binary64Negation.

(** ** Calibration *)

Lemma nonneg_not_below_zero (a : PyNum float) :
  nonneg a -> py_lt a (PyInt 0) = false.
Proof.
  destruct a as [z | x].
  - cbn [nonneg py_lt]. intros Hz. apply Z.ltb_ge. exact Hz.
  - change (py_lt (PyFloat x) (PyInt 0)) with (Binary64.ltbZ x 0).
    unfold nonneg, Binary64.ltbZ.
    destruct (Prim2SF x) as [s | s | | s p e]; cbn [sign_class]; intros Hs;
      try reflexivity; subst s; try reflexivity.
    assert (Hsg : Binary64.signed false p = Z.pos p) by reflexivity.
    rewrite Hsg. clear Hsg.
    destruct (0 <=? e) eqn:He; apply Z.ltb_ge.
    + apply Z.mul_nonneg_nonneg; [lia |]. apply Z.pow_nonneg. lia.
    + lia.
Qed.




(** ** Speed limits *)





(** ** A duration of zero *)

(** Without a duration, or with a falsy one, the feed rate is the ceiling
    and the outcome of the call is the outcome of the division of line 93,
    after the write. *)
Lemma dispense_default_run {F : Type} {ops : FloatOps F} {R : FloatRepr F}
    (self : SyringePump.t F) (pumpId : string) (c : AxisConfig F)
    (volume : PyNum F) (s : Serial) (totalmm perSecond : PyNum F) :
  dict_get pumpId (SyringePump.syringePumpsConfig self) = Some c ->
  py_mul volume (mmPerml c) = Ok totalmm ->
  py_truediv (maxmmPerMin c) (PyInt 60) = Ok perSecond ->
  SyringePump.dispense self pumpId volume None s
    = (py_truediv (py_abs totalmm) perSecond,
       (s ++ [SyringePump.motion_command pumpId totalmm (maxmmPerMin c)])%list).
Proof.
  intros Hc Hmm Hps.
  rewrite (dispense_run self pumpId c volume None s Hc).
  cbn [SyringePump.dispense_speed]. rewrite Hmm. cbv zeta. rewrite Hps.
  destruct (py_truediv (py_abs totalmm) perSecond); reflexivity.
Qed.

(** A quotient by a float that is not zero is computed as soon as the
    dividend converts. *)
Lemma truediv_returns {F : Type} {ops : FloatOps F} (a : PyNum F) (x y : F) :
  to_float a = Ok x -> f_is_zero y = false ->
  py_truediv a (PyFloat y) = Ok (PyFloat (f_div x y)).
Proof.
  intros Ha Hy. destruct a as [z | x']; cbn [py_truediv to_float] in *.
  - destruct (f_of_Z z) as [x' |]; [| discriminate Ha].
    inversion Ha; subst. rewrite Hy. reflexivity.
  - inversion Ha; subst. rewrite Hy. reflexivity.
Qed.

(** C10, as stated, fails on the code: with a duration of zero the call
    can still divide by zero.  In IEEE double arithmetic the constructor
    accepts maxmmPerMin [0], and [5e-324]; on either instance
    [dispense("X", 2, 0)] writes its command and then raises
    ZeroDivisionError on line 93, where [maxmmPerMin / 60] is zero. *)
Lemma zero_duration_divides_by_zero :
  fst (SyringePump.__init__ (one_axis axis_zero_ceiling) [])
    = Ok (pump_of axis_zero_ceiling) /\
  fst (SyringePump.__init__ (one_axis axis_tiny_ceiling) [])
    = Ok (pump_of axis_tiny_ceiling) /\
  ~ completes_normally (pump_of axis_zero_ceiling) "X" (PyInt 2)
      (Some (PyInt 0)) /\
  ~ completes_normally (pump_of axis_tiny_ceiling) "X" (PyInt 2)
      (Some (PyInt 0)) /\
  SyringePump.dispense (pump_of axis_zero_ceiling) "X" (PyInt 2)
      (Some (PyInt 0)) []
    = (Raise ZeroDivisionError, [("G91 G1 X100 F0" ++ LF)%string]) /\
  SyringePump.dispense (pump_of axis_tiny_ceiling) "X" (PyInt 2)
      (Some (PyInt 0)) []
    = (Raise ZeroDivisionError, [("G91 G1 X100 F5e-324" ++ LF)%string]).
Proof.
  split; [vm_compute; reflexivity |].
  split; [vm_compute; reflexivity |].
  split; [| split; [| split; vm_compute; reflexivity]];
    intros Hclaim; destruct (Hclaim []) as (t & s' & Hrun);
    vm_compute in Hrun; discriminate Hrun.
Qed.

(** C10, amended: a duration of zero never reaches the division
    [volume / duration], and there is no InvalidDuration error.  First part,
    every float arithmetic: [dispense] with a duration that is falsy ([0],
    [0.0]) is the same computation as with no duration.  Second part, every
    float arithmetic: on a configured axis, when the distance
    [volume * mmPerml] and [maxmmPerMin / 60] can be computed and the volume
    and the numbers in the command can be formatted, the command is written
    with feed rate
    [maxmmPerMin] and the outcome of the call is the outcome of
    [abs(totalmm) / (maxmmPerMin / 60)]: it returns that quotient when
    [maxmmPerMin / 60] is not zero and [abs(totalmm)] converts to a float.
    Third part, IEEE doubles: when [maxmmPerMin / 60] is zero the call
    raises, after the write, ZeroDivisionError, or OverflowError when
    [abs(totalmm)] does not convert.  Fourth part, IEEE doubles, scenario 1:
    with duration [0] every float volume returns
    [abs(volume * 50) / (500 / 60)], and [dispense("X", 2, 0)] and
    [dispense("X", 2, 0.0)] write [G91 G1 X100 F500] and return [12.0]. *)
Theorem dispense_zero_duration :
  (forall (F : Type) (ops : FloatOps F) (R : FloatRepr F)
          (self : SyringePump.t F) (pumpId : string) (volume d : PyNum F)
          (s : Serial),
     py_bool d = false ->
     SyringePump.dispense self pumpId volume (Some d) s
       = SyringePump.dispense self pumpId volume None s) /\
  (forall (F : Type) (ops : FloatOps F) (R : FloatRepr F)
          (self : SyringePump.t F) (pumpId : string) (c : AxisConfig F)
          (volume d : PyNum F) (s : Serial) (totalmm perSecond : PyNum F),
     dict_get pumpId (SyringePump.syringePumpsConfig self) = Some c ->
     py_bool d = false ->
     py_mul volume (mmPerml c) = Ok totalmm ->
     py_truediv (maxmmPerMin c) (PyInt 60) = Ok perSecond ->
     formattable volume ->
     formattable totalmm ->
     formattable (maxmmPerMin c) ->
     SyringePump.dispense self pumpId volume (Some d) s
       = (py_truediv (py_abs totalmm) perSecond,
          (s ++ [SyringePump.motion_command pumpId totalmm
                   (maxmmPerMin c)])%list) /\
     (py_bool perSecond = true ->
      forall x : F,
        to_float (py_abs totalmm) = Ok x ->
        exists t, py_truediv (py_abs totalmm) perSecond = Ok t)) /\
  (forall (R : FloatRepr float) (self : SyringePump.t float)
          (pumpId : string) (c : AxisConfig float) (volume d : PyNum float)
          (s : Serial) (totalmm perSecond : PyNum float),
     dict_get pumpId (SyringePump.syringePumpsConfig self) = Some c ->
     py_bool d = false ->
     py_mul volume (mmPerml c) = Ok totalmm ->
     py_truediv (maxmmPerMin c) (PyInt 60) = Ok perSecond ->
     formattable volume ->
     formattable totalmm ->
     formattable (maxmmPerMin c) ->
     py_bool perSecond = false ->
     exists e,
       SyringePump.dispense self pumpId volume (Some d) s
         = (Raise e,
            (s ++ [SyringePump.motion_command pumpId totalmm
                     (maxmmPerMin c)])%list) /\
       (e = ZeroDivisionError \/ e = OverflowError)) /\
  (forall (x : float) (s : Serial),
     SyringePump.dispense (pump1 float) "X" (PyFloat x) (Some (PyInt 0)) s
       = (Ok (PyFloat (abs (x * 50) / 0x1.0aaaaaaaaaaabp+3)%float),
          (s ++ [SyringePump.motion_command "X" (PyFloat (x * 50)%float)
                   (PyInt 500)])%list)) /\
  (forall s : Serial,
     SyringePump.dispense (pump1 float) "X" (PyInt 2) (Some (PyInt 0)) s
       = (Ok (PyFloat 12%float),
          (s ++ [("G91 G1 X100 F500" ++ LF)%string])%list) /\
     SyringePump.dispense (pump1 float) "X" (PyInt 2) (Some (PyFloat 0%float)) s
       = (Ok (PyFloat 12%float),
          (s ++ [("G91 G1 X100 F500" ++ LF)%string])%list)).
Proof.
  split; [| split; [| split; [| split]]].
  - intros F ops R self pumpId volume d s Hd.
    exact (dispense_falsy_duration self pumpId volume d s Hd).
  - intros F ops R self pumpId c volume d s totalmm perSecond
           Hc Hd Hmm Hps _ _ _.
    split.
    + rewrite (dispense_falsy_duration self pumpId volume d s Hd).
      exact (dispense_default_run self pumpId c volume s totalmm perSecond
               Hc Hmm Hps).
    + intros Hnz x Hx.
      destruct perSecond as [z | y].
      * destruct (maxmmPerMin c) as [a | a]; cbn [py_truediv to_float] in Hps.
        -- destruct (60 =? 0); [discriminate Hps |].
           destruct (f_divZ a 60); discriminate Hps.
        -- destruct (f_of_Z 60) as [y |]; [| discriminate Hps].
           destruct (f_is_zero y); discriminate Hps.
      * cbn [py_bool] in Hnz. apply negb_true_iff in Hnz.
        exists (PyFloat (f_div x y)).
        exact (truediv_returns (py_abs totalmm) x y Hx Hnz).
  - intros R self pumpId c volume d s totalmm perSecond
           Hc Hd Hmm Hps _ _ _ Hz.
    rewrite (dispense_falsy_duration self pumpId volume d s Hd).
    rewrite (dispense_default_run self pumpId c volume s totalmm perSecond
               Hc Hmm Hps).
    destruct (truediv_by_zero (py_abs totalmm) perSecond Hz) as (e & -> & He).
    exists e. split; [reflexivity | exact He].
  - intros x s.
    rewrite (dispense_falsy_duration (R := binary64_repr) (pump1 float) "X"
               (PyFloat x) (PyInt 0) s eq_refl).
    exact (binary64_dispense_any_volume binary64_repr x s).
  - intros s. split; vm_compute; reflexivity.
Qed.

Lemma dispense_zero_duration_witness :
  SyringePump.dispense (pump1 float) "X" (PyInt 2) (Some (PyInt 0)) []
    = (py_truediv (py_abs (PyInt 100)) (PyFloat 0x1.0aaaaaaaaaaabp+3%float),
       ([] ++ [SyringePump.motion_command "X" (PyInt 100)
                 (maxmmPerMin (axisX float))])%list) /\
  (py_bool (PyFloat 0x1.0aaaaaaaaaaabp+3%float) = true ->
   forall x : float,
     to_float (py_abs (PyInt 100)) = Ok x ->
     exists t,
       py_truediv (py_abs (PyInt 100)) (PyFloat 0x1.0aaaaaaaaaaabp+3%float)
         = Ok t).
Proof.
  apply (proj1 (proj2 dispense_zero_duration) float binary64 binary64_repr
           (pump1 float) "X" (axisX float) (PyInt 2) (PyInt 0) []
           (PyInt 100) (PyFloat 0x1.0aaaaaaaaaaabp+3%float)).
  - reflexivity.
  - reflexivity.
  - reflexivity.
  - vm_compute. reflexivity.
  - vm_compute. reflexivity.
  - vm_compute. reflexivity.
  - vm_compute. reflexivity.
Defined.

(** ** What dispense accepts as a volume *)

(** C4, as stated, fails on the code: in IEEE double arithmetic on
    scenario 1, a volume of zero, an infinite volume and a NaN volume are
    not rejected; each call returns after its write. *)
Lemma dispense_volume_not_rejected :
  ~ rejects_volume (pump1 float) "X" (PyInt 0) None /\
  ~ rejects_volume (pump1 float) "X" (PyFloat infinity) None /\
  ~ rejects_volume (pump1 float) "X" (PyFloat nan) None.
Proof.
  repeat split; intros Hclaim;
    destruct (Hclaim []) as (e & Hrun);
    vm_compute in Hrun; discriminate Hrun.
Qed.

(** C4, amended: [dispense] has no validation of the volume and no
    InvalidVolume error.  First part, every float arithmetic: without a
    duration, on a configured axis whose mmPerml converts to a float and
    whose maxmmPerMin can be formatted, every float volume, a zero, an
    infinity and NaN included, has its motion command written, with distance
    [volume * mmPerml] and feed rate [maxmmPerMin].  Second part, IEEE
    doubles: so has the int volume [0], under the same conditions.  Third
    part, IEEE doubles, scenario 1 without a duration: every float volume
    returns [abs(volume * 50) / (500 / 60)] after its write; the int volume
    [0] writes [G91 G1 X0 F500] and returns [0.0]; an infinite volume writes
    [G91 G1 Xinf F500] and returns [inf]; a NaN volume writes
    [G91 G1 Xnan F500] and returns [nan].  With volume [0] and duration [30],
    [G91 G1 X0 F0.0] is written and line 93 then raises
    ZeroDivisionError. *)
Theorem dispense_volume_unvalidated :
  (forall (F : Type) (ops : FloatOps F) (R : FloatRepr F)
          (self : SyringePump.t F) (pumpId : string) (c : AxisConfig F)
          (x y : F) (s : Serial),
     dict_get pumpId (SyringePump.syringePumpsConfig self) = Some c ->
     to_float (mmPerml c) = Ok y ->
     formattable (maxmmPerMin c) ->
     snd (SyringePump.dispense self pumpId (PyFloat x) None s)
       = (s ++ [SyringePump.motion_command pumpId (PyFloat (f_mul x y))
                  (maxmmPerMin c)])%list) /\
  (forall (R : FloatRepr float) (self : SyringePump.t float)
          (pumpId : string) (c : AxisConfig float) (y : float) (s : Serial),
     dict_get pumpId (SyringePump.syringePumpsConfig self) = Some c ->
     to_float (mmPerml c) = Ok y ->
     formattable (maxmmPerMin c) ->
     exists totalmm,
       py_mul (PyInt 0) (mmPerml c) = Ok totalmm /\
       snd (SyringePump.dispense self pumpId (PyInt 0) None s)
         = (s ++ [SyringePump.motion_command pumpId totalmm
                    (maxmmPerMin c)])%list) /\
  (forall (x : float) (s : Serial),
     SyringePump.dispense (pump1 float) "X" (PyFloat x) None s
       = (Ok (PyFloat (abs (x * 50) / 0x1.0aaaaaaaaaaabp+3)%float),
          (s ++ [SyringePump.motion_command "X" (PyFloat (x * 50)%float)
                   (PyInt 500)])%list)) /\
  (forall s : Serial,
     SyringePump.dispense (pump1 float) "X" (PyInt 0) None s
       = (Ok (PyFloat 0%float),
          (s ++ [("G91 G1 X0 F500" ++ LF)%string])%list) /\
     SyringePump.dispense (pump1 float) "X" (PyFloat infinity) None s
       = (Ok (PyFloat infinity),
          (s ++ [("G91 G1 Xinf F500" ++ LF)%string])%list) /\
     SyringePump.dispense (pump1 float) "X" (PyFloat nan) None s
       = (Ok (PyFloat nan),
          (s ++ [("G91 G1 Xnan F500" ++ LF)%string])%list) /\
     SyringePump.dispense (pump1 float) "X" (PyInt 0) (Some (PyInt 30)) s
       = (Raise ZeroDivisionError,
          (s ++ [("G91 G1 X0 F0.0" ++ LF)%string])%list)).
Proof.
  split; [| split; [| split]].
  - intros F ops R self pumpId c x y s Hc Hy _.
    apply (dispense_writes self pumpId c (PyFloat x) None s (maxmmPerMin c)
             (PyFloat (f_mul x y)) Hc eq_refl).
    destruct (mmPerml c) as [w | y']; cbn [py_mul to_float] in *.
    + destruct (f_of_Z w) as [y' |]; [| discriminate Hy].
      inversion Hy; subst. reflexivity.
    + inversion Hy; subst. reflexivity.
  - intros R self pumpId c y s Hc Hy _.
    assert (Htot : exists totalmm,
               py_mul (PyInt 0) (mmPerml c) = Ok totalmm).
    { destruct (mmPerml c) as [w | y']; cbn [py_mul to_float] in *.
      - exists (PyInt 0). reflexivity.
      - change (f_of_Z 0) with (Binary64.of_Z 0). rewrite of_Z_zero.
        eexists. reflexivity. }
    destruct Htot as (totalmm & Hmm).
    exists totalmm. split; [exact Hmm |].
    exact (dispense_writes self pumpId c (PyInt 0) None s (maxmmPerMin c)
             totalmm Hc eq_refl Hmm).
  - intros x s. exact (binary64_dispense_any_volume binary64_repr x s).
  - intros s. split; [| split; [| split]].
    + vm_compute. reflexivity.
    + rewrite (binary64_dispense_any_volume binary64_repr).
      vm_compute. reflexivity.
    + rewrite (binary64_dispense_any_volume binary64_repr).
      vm_compute. reflexivity.
    + vm_compute. reflexivity.
Qed.

Lemma dispense_volume_unvalidated_witness :
  snd (SyringePump.dispense (pump1 float) "X" (PyFloat nan) None [])
    = ([] ++ [SyringePump.motion_command "X" (PyFloat (f_mul nan 50%float))
                (maxmmPerMin (axisX float))])%list.
Proof.
  apply (proj1 dispense_volume_unvalidated float binary64 binary64_repr
           (pump1 float) "X" (axisX float) nan 50%float []).
  - reflexivity.
  - vm_compute. reflexivity.
  - vm_compute. reflexivity.
Defined.

(** ** What the constructor accepts *)

Section CeilingOnlyWritten.
Context {F : Type} {ops : FloatOps F} {R : FloatRepr F}.

(** An iteration reads maxmmPerMin only to write it. *)
Lemma init_axis_with_maxmmPerMin (m : PyNum F) (axisMin : dict Z)
    (axis : string) (c : AxisConfig F) (s s' : Serial) :
  List.length s' = List.length s ->
  match SyringePump.init_axis axisMin axis (with_maxmmPerMin m c) s',
        SyringePump.init_axis axisMin axis c s with
  | (Ok a', s1'), (Ok a, s1) => a' = a /\ List.length s1' = List.length s1
  | (Raise e', s1'), (Raise e, s1) => e' = e /\ List.length s1' = List.length s1
  | _, _ => False
  end.
Proof.
  intros Hlen. rewrite !init_axis_run.
  cbn [with_maxmmPerMin mmPerRev stepsPerRev maxmmPerMin].
  destruct (py_truediv (stepsPerRev c) (mmPerRev c)) as [stepsPerMM | e];
    [| split; [reflexivity | exact Hlen]].
  destruct (min_feed stepsPerMM) as [floor | e];
    [| split; [reflexivity | exact Hlen]].
  destruct (dict_get axis SyringePump.axisToCNCID) as [id |];
    [| split; [reflexivity | exact Hlen]].
  split; [reflexivity |].
  rewrite !length_app, Hlen. reflexivity.
Qed.

Lemma init_loop_with_maxmmPerMin (f : string -> AxisConfig F -> PyNum F)
    (items : dict (AxisConfig F)) :
  forall (axisMin : dict Z) (s s' : Serial),
    List.length s' = List.length s ->
    match SyringePump.init_loop
            (map (fun item =>
                    (fst item,
                     with_maxmmPerMin (f (fst item) (snd item)) (snd item)))
                 items) axisMin s',
          SyringePump.init_loop items axisMin s with
    | (Ok a', s1'), (Ok a, s1) => a' = a /\ List.length s1' = List.length s1
    | (Raise e', s1'), (Raise e, s1) =>
        e' = e /\ List.length s1' = List.length s1
    | _, _ => False
    end.
Proof.
  induction items as [| [axis c] rest IH]; intros axisMin s s' Hlen.
  - cbn [map SyringePump.init_loop]. unfold ret. split; [reflexivity | exact Hlen].
  - cbn [map fst snd SyringePump.init_loop]. unfold bind.
    pose proof (init_axis_with_maxmmPerMin (f axis c) axisMin axis c s s' Hlen)
      as Haxis.
    destruct (SyringePump.init_axis axisMin axis (with_maxmmPerMin (f axis c) c) s')
      as [[a' | e'] s1'];
      destruct (SyringePump.init_axis axisMin axis c s) as [[a | e] s1];
      try contradiction.
    + destruct Haxis as [-> Hlen1]. exact (IH a s1 s1' Hlen1).
    + exact Haxis.
Qed.

End CeilingOnlyWritten.

(** In IEEE double arithmetic, an axis whose mmPerRev or stepsPerRev is
    zero stops the loop in the arithmetic of lines 55 and 61, before the
    iteration writes. *)
Lemma init_axis_zero {R : FloatRepr float} (axisMin : dict Z) (axis : string)
    (c : AxisConfig float) (s : Serial) :
  py_bool (mmPerRev c) = false \/ py_bool (stepsPerRev c) = false ->
  exists e,
    SyringePump.init_axis axisMin axis c s = (Raise e, s) /\
    (e = ZeroDivisionError \/ e = OverflowError \/ e = ValueError).
Proof.
  intros Hzero. rewrite init_axis_run.
  destruct (py_truediv (stepsPerRev c) (mmPerRev c)) as [stepsPerMM | e] eqn:Hsteps.
  - destruct Hzero as [Hmm | Hsp].
    + destruct (truediv_by_zero (stepsPerRev c) (mmPerRev c) Hmm)
        as (e & He & _).
      rewrite He in Hsteps. discriminate Hsteps.
    + destruct (truediv_float _ _ _ Hsteps) as [q ->].
      pose proof (truediv_zero_l _ _ q Hsp Hsteps) as Hq.
      destruct (min_feed_zero_or_nan q Hq) as [-> | ->].
      * exists ZeroDivisionError. split; [reflexivity | left; reflexivity].
      * exists ValueError. split; [reflexivity | right; right; reflexivity].
  - exists e. split; [reflexivity |].
    destruct (py_truediv_errors _ _ _ Hsteps) as [-> | ->];
      [left; reflexivity | right; left; reflexivity].
Qed.

(** C3, as stated, fails on the code: the constructor validates nothing.
    In IEEE double arithmetic, scenario 1 with mmPerml 0 and maxmmPerMin
    -500, and scenario 1 with maxmmPerMin NaN, both construct; and with a
    second axis whose mmPerRev is 0 the constructor raises only after the
    two writes of the first axis. *)
Lemma construction_not_fail_closed :
  ~ fails_closed (config_negative_ceiling float) /\
  ~ fails_closed config_nan_ceiling /\
  ~ fails_closed (config_zero_pitch float).
Proof.
  repeat split; intros Hclaim;
    destruct (Hclaim []) as (e & Hrun);
    vm_compute in Hrun; discriminate Hrun.
Qed.

(** C3, amended: construction performs no validation of the configuration
    and has no InvalidConfiguration error.  First part, every float
    arithmetic: mmPerml is never read; replacing the mmPerml of every axis by
    any values changes neither the outcome of the constructor nor what it
    writes.  Second part, every float arithmetic: maxmmPerMin is only
    written; replacing the maxmmPerMin of every axis by any values that can
    be formatted, as the original ones, changes neither whether the
    constructor returns, nor the exception it raises, nor the floors it
    records, nor the number of its writes.  Third part, IEEE doubles:
    mmPerRev and stepsPerRev are used only in the arithmetic of lines 55 and
    61; an axis whose mmPerRev or stepsPerRev is zero, reached after axes
    that calibrated, makes the constructor raise ZeroDivisionError,
    OverflowError or ValueError, with the directives of those earlier axes
    written and nothing of its own: construction fails partially.  Fourth
    part, IEEE doubles: negative values are accepted; scenario 1 with
    mmPerRev -8 constructs, writes [$100=-25.0] and [$110=500], and records
    the floor -144. *)
Theorem construction_unvalidated :
  (forall (F : Type) (ops : FloatOps F) (R : FloatRepr F)
          (f : string -> AxisConfig F -> PyNum F)
          (config : SyringePump.reagent_dispenser_config F) (s : Serial),
     snd (SyringePump.__init__ (replace_mmPerml f config) s)
       = snd (SyringePump.__init__ config s) /\
     same_outcome (SyringePump.__init__ (replace_mmPerml f config) s)
                  (SyringePump.__init__ config s)) /\
  (forall (F : Type) (ops : FloatOps F) (R : FloatRepr F)
          (f : string -> AxisConfig F -> PyNum F)
          (config : SyringePump.reagent_dispenser_config F) (s : Serial),
     Forall (fun item =>
               formattable (maxmmPerMin (snd item)) /\
               formattable (f (fst item) (snd item)))
            (SyringePump.config_syringePumpsConfig config) ->
     same_outcome (SyringePump.__init__ (replace_maxmmPerMin f config) s)
                  (SyringePump.__init__ config s)) /\
  (forall (R : FloatRepr float)
          (config : SyringePump.reagent_dispenser_config float) (s s1 : Serial)
          (good rest : dict (AxisConfig float)) (axis : string)
          (c : AxisConfig float) (axisMin : dict Z),
     SyringePump.config_syringePumpsConfig config
       = (good ++ (axis, c) :: rest)%list ->
     Forall (fun item => formattable (maxmmPerMin (snd item))) good ->
     SyringePump.init_loop good [] s = (Ok axisMin, s1) ->
     py_bool (mmPerRev c) = false \/ py_bool (stepsPerRev c) = false ->
     exists e,
       SyringePump.__init__ config s = (Raise e, s1) /\
       s1 = (s ++ flat_map axis_directives good)%list /\
       (e = ZeroDivisionError \/ e = OverflowError \/ e = ValueError)) /\
  SyringePump.__init__ (one_axis axis_negative_pitch) []
    = (Ok {| SyringePump.syringePumpsConfig := [("X", axis_negative_pitch)];
             SyringePump.axisMinmmPerMin := [("X", -144)] |},
       [("$100=-25.0" ++ LF)%string; ("$110=500" ++ LF)%string]).
Proof.
  split; [| split; [| split]].
  - intros F ops R f config s.
    unfold same_outcome, SyringePump.__init__, replace_mmPerml, bind, ret.
    cbn [SyringePump.config_syringePumpsConfig].
    rewrite init_loop_ignores_mmPerml.
    destruct (SyringePump.init_loop
                (SyringePump.config_syringePumpsConfig config) [] s)
      as [[axisMin | e] s1]; cbn [fst snd SyringePump.axisMinmmPerMin];
      repeat split; reflexivity.
  - intros F ops R f config s _.
    unfold same_outcome, SyringePump.__init__, replace_maxmmPerMin, bind, ret.
    cbn [SyringePump.config_syringePumpsConfig].
    pose proof (init_loop_with_maxmmPerMin f
                  (SyringePump.config_syringePumpsConfig config) [] s s eq_refl)
      as Hloop.
    destruct (SyringePump.init_loop (map _ _) [] s) as [[a' | e'] s1'];
      destruct (SyringePump.init_loop
                  (SyringePump.config_syringePumpsConfig config) [] s)
        as [[a | e] s1];
      cbn [SyringePump.axisMinmmPerMin]; exact Hloop.
  - intros R config s s1 good rest axis c axisMin Hitems _ Hgood Hzero.
    destruct (init_axis_zero axisMin axis c s1 Hzero) as (e & Haxis & He).
    exists e. split; [| split; [| exact He]].
    + unfold SyringePump.__init__. rewrite Hitems.
      apply bind_raise. rewrite init_loop_app.
      rewrite (bind_ok _ _ _ _ _ _ _ Hgood).
      cbn [SyringePump.init_loop]. apply bind_raise. exact Haxis.
    + apply init_loop_ok_inv in Hgood. exact (proj1 Hgood).
  - vm_compute. reflexivity.
Qed.

Lemma construction_unvalidated_witness :
  exists e,
    SyringePump.__init__ (config_zero_pitch float) []
      = (Raise e, [("$100=25.0" ++ LF)%string; ("$110=500" ++ LF)%string]) /\
    [("$100=25.0" ++ LF)%string; ("$110=500" ++ LF)%string]
      = ([] ++ flat_map axis_directives [("X", axisX float)])%list /\
    (e = ZeroDivisionError \/ e = OverflowError \/ e = ValueError).
Proof.
  apply (proj1 (proj2 (proj2 construction_unvalidated)) binary64_repr
           (config_zero_pitch float) []
           [("$100=25.0" ++ LF)%string; ("$110=500" ++ LF)%string]
           [("X", axisX float)] [] "Y"
           {| mmPerRev := PyInt 0; stepsPerRev := PyInt 200;
              mmPerml := PyInt 50; maxmmPerMin := PyInt 500 |}
           [("X", 144)]).
  - reflexivity.
  - constructor; [vm_compute; reflexivity | constructor].
  - vm_compute. reflexivity.
  - left. reflexivity.
Defined.

(** ** An axis the controller does not have *)

(** X6: an axis name other than X, Y, Z in the configuration, in every
    float arithmetic.  The lookup of line 64 comes after the arithmetic of
    lines 55 and 61 and before the first write of the axis.  When the axes
    before it calibrated (their ceilings can be formatted), the constructor
    stops at that axis with their directives written and none for it: it
    raises [KeyError] on the name when the arithmetic of the axis succeeds,
    and the error of the arithmetic when that raises. *)
Theorem construction_unsupported_axis
    (F : Type) (ops : FloatOps F) (R : FloatRepr F)
    (config : SyringePump.reagent_dispenser_config F) (s s1 : Serial)
    (good rest : dict (AxisConfig F)) (axis : string) (c : AxisConfig F)
    (axisMin : dict Z) :
  SyringePump.config_syringePumpsConfig config
    = (good ++ (axis, c) :: rest)%list ->
  Forall (fun item => formattable (maxmmPerMin (snd item))) good ->
  SyringePump.init_loop good [] s = (Ok axisMin, s1) ->
  ~ In axis ["X"; "Y"; "Z"]%string ->
  s1 = (s ++ flat_map axis_directives good)%list /\
  (forall stepsPerMM floor,
     py_truediv (stepsPerRev c) (mmPerRev c) = Ok stepsPerMM ->
     min_feed stepsPerMM = Ok floor ->
     SyringePump.__init__ config s = (Raise (KeyError axis), s1)) /\
  (forall e,
     py_truediv (stepsPerRev c) (mmPerRev c) = Raise e ->
     SyringePump.__init__ config s = (Raise e, s1)) /\
  (forall stepsPerMM e,
     py_truediv (stepsPerRev c) (mmPerRev c) = Ok stepsPerMM ->
     min_feed stepsPerMM = Raise e ->
     SyringePump.__init__ config s = (Raise e, s1)).
Proof.
  intros Hitems _ Hgood Hother.
  assert (Hstop : forall e,
            SyringePump.init_axis axisMin axis c s1 = (Raise e, s1) ->
            SyringePump.__init__ config s = (Raise e, s1)).
  { intros e Haxis. unfold SyringePump.__init__. rewrite Hitems.
    apply bind_raise. rewrite init_loop_app.
    rewrite (bind_ok _ _ _ _ _ _ _ Hgood).
    cbn [SyringePump.init_loop]. apply bind_raise. exact Haxis. }
  split; [| split; [| split]].
  - apply init_loop_ok_inv in Hgood. exact (proj1 Hgood).
  - intros stepsPerMM floor Hsteps Hfloor. apply Hstop.
    rewrite init_axis_run, Hsteps, Hfloor, (axisToCNCID_unknown axis Hother).
    reflexivity.
  - intros e Hsteps. apply Hstop.
    rewrite init_axis_run, Hsteps. reflexivity.
  - intros stepsPerMM e Hsteps Hfloor. apply Hstop.
    rewrite init_axis_run, Hsteps, Hfloor. reflexivity.
Qed.

Lemma construction_unsupported_axis_witness :
  [("$100=25.0" ++ LF)%string; ("$110=500" ++ LF)%string]
    = ([] ++ flat_map axis_directives [("X", axisX float)])%list /\
  SyringePump.__init__
    {| SyringePump.arduinoPort := "/dev/ttyACM0";
       SyringePump.config_syringePumpsConfig :=
         [("X", axisX float); ("A", axisX float)] |} []
    = (Raise (KeyError "A"),
       [("$100=25.0" ++ LF)%string; ("$110=500" ++ LF)%string]).
Proof.
  destruct (construction_unsupported_axis float binary64 binary64_repr
              {| SyringePump.arduinoPort := "/dev/ttyACM0";
                 SyringePump.config_syringePumpsConfig :=
                   [("X", axisX float); ("A", axisX float)] |}
              [] [("$100=25.0" ++ LF)%string; ("$110=500" ++ LF)%string]
              [("X", axisX float)] [] "A" (axisX float) [("X", 144)])
    as (Hwritten & Hkey & _).
  - reflexivity.
  - constructor; [vm_compute; reflexivity | constructor].
  - vm_compute. reflexivity.
  - simpl. intros [E | [E | [E | []]]]; discriminate E.
  - split; [exact Hwritten |].
    apply (Hkey (PyFloat 25%float) 144); vm_compute; reflexivity.
Defined.

(** ** The elapsed time without a duration *)

(** X10: without a duration the elapsed time is never negative.  In IEEE
    double arithmetic, on an axis whose maxmmPerMin is greater than zero, a
    [dispense] call without a duration (or with a falsy one) that returns,
    returns a time that is not below zero, whatever the sign of the volume:
    line 93 divides [abs(totalmm)] by a feed rate that is not negative. *)
Theorem default_elapsed_not_negative
    (R : FloatRepr float) (self : SyringePump.t float) (pumpId : string)
    (c : AxisConfig float) (volume : PyNum float)
    (duration : option (PyNum float)) (s s' : Serial) (t : PyNum float) :
  dict_get pumpId (SyringePump.syringePumpsConfig self) = Some c ->
  py_lt (PyInt 0) (maxmmPerMin c) = true ->
  duration = None \/ (exists d, duration = Some d /\ py_bool d = false) ->
  SyringePump.dispense self pumpId volume duration s = (Ok t, s') ->
  py_lt t (PyInt 0) = false.
Proof.
  intros Hc Hmax Hdur Hrun.
  assert (Hnone : SyringePump.dispense self pumpId volume None s = (Ok t, s')).
  { destruct Hdur as [-> | (d & -> & Hd)]; [exact Hrun |].
    rewrite <- (dispense_falsy_duration self pumpId volume d s Hd). exact Hrun. }
  rewrite (dispense_run self pumpId c volume None s Hc) in Hnone.
  cbn [SyringePump.dispense_speed] in Hnone.
  destruct (py_mul volume (mmPerml c)) as [totalmm | e]; [| discriminate Hnone].
  cbv zeta in Hnone.
  destruct (py_truediv (maxmmPerMin c) (PyInt 60)) as [perSecond | e] eqn:Hps;
    [| discriminate Hnone].
  destruct (py_truediv (py_abs totalmm) perSecond) as [t' | e] eqn:Ht;
    [| discriminate Hnone].
  inversion Hnone; subst t'.
  apply nonneg_not_below_zero.
  apply (truediv_nonneg (py_abs totalmm) perSecond t); [| | exact Ht].
  - destruct totalmm as [z | x]; cbn [py_abs nonneg].
    + apply Z.abs_nonneg.
    + change (f_abs x) with (abs x). rewrite abs_spec.
      destruct (Prim2SF x); reflexivity || exact I.
  - apply (truediv_nonneg (maxmmPerMin c) (PyInt 60) perSecond);
      [apply positive_nonneg; exact Hmax | cbn [nonneg]; lia | exact Hps].
Qed.

Lemma default_elapsed_not_negative_witness :
  py_lt (PyFloat 12%float) (PyInt 0) = false.
Proof.
  apply (default_elapsed_not_negative binary64_repr (pump1 float) "X"
           (axisX float) (PyInt (-2)) None []
           [("G91 G1 X-100 F500" ++ LF)%string] (PyFloat 12%float)).
  - reflexivity.
  - vm_compute. reflexivity.
  - left. reflexivity.
  - vm_compute. reflexivity.
Defined.

(** ** Withdrawing *)

(** X11: withdrawing takes as long as dispensing.  In IEEE double
    arithmetic, for every instance, identifier and volume, int or float,
    [dispense] without a duration ends the same way for [-volume] as for
    [volume]: it returns the same elapsed time, or raises the same
    exception. *)
Theorem withdraw_mirrors_dispense
    (R : FloatRepr float) (self : SyringePump.t float) (pumpId : string)
    (volume : PyNum float) (s : Serial) :
  fst (SyringePump.dispense self pumpId (py_neg volume) None s)
    = fst (SyringePump.dispense self pumpId volume None s).
Proof.
  destruct (dict_get pumpId (SyringePump.syringePumpsConfig self)) as [c |] eqn:Hc.
  - rewrite !(dispense_run self pumpId c _ None s Hc).
    cbn [SyringePump.dispense_speed].
    pose proof (mul_neg_abs volume (mmPerml c)) as Habs.
    destruct (py_mul (py_neg volume) (mmPerml c)) as [t' | e'];
      destruct (py_mul volume (mmPerml c)) as [t0 | e]; try contradiction.
    + cbv zeta. rewrite Habs.
      destruct (py_truediv (maxmmPerMin c) (PyInt 60)) as [perSecond | e];
        [| reflexivity].
      destruct (py_truediv (py_abs t0) perSecond); reflexivity.
    + subst e'. reflexivity.
  - apply dict_get_None in Hc.
    rewrite !(unknown_axis_raises self pumpId _ None s Hc). reflexivity.
Qed.

(** ** An axis with mmPerml zero *)

(** X14: the constructor never reads mmPerml, but [getPumpSpeedLimits]
    divides by it.  In IEEE double arithmetic, for a configured axis whose
    mmPerml is zero, [getPumpSpeedLimits] raises, ZeroDivisionError or,
    when an int maxmmPerMin does not convert to a float, OverflowError, and
    leaves the serial line as it was. *)
Theorem zero_mmPerml_axis
    (self : SyringePump.t float) (pumpId : string) (c : AxisConfig float)
    (s : Serial) :
  dict_get pumpId (SyringePump.syringePumpsConfig self) = Some c ->
  py_bool (mmPerml c) = false ->
  exists e,
    SyringePump.getPumpSpeedLimits self pumpId s = (Raise e, s) /\
    (e = ZeroDivisionError \/ e = OverflowError).
Proof.
  intros Hc Hml.
  destruct (truediv_by_zero (maxmmPerMin c) (mmPerml c) Hml) as (e & He & Hkind).
  exists e. split; [| exact Hkind].
  unfold SyringePump.getPumpSpeedLimits, bind, lift, subscript.
  rewrite Hc, He. reflexivity.
Qed.

Lemma zero_mmPerml_axis_witness :
  exists e,
    SyringePump.getPumpSpeedLimits
      {| SyringePump.syringePumpsConfig :=
           SyringePump.config_syringePumpsConfig (config_negative_ceiling float);
         SyringePump.axisMinmmPerMin := [("X", 144)] |} "X" []
      = (Raise e, []) /\
    (e = ZeroDivisionError \/ e = OverflowError).
Proof.
  apply (zero_mmPerml_axis
           {| SyringePump.syringePumpsConfig :=
                SyringePump.config_syringePumpsConfig
                  (config_negative_ceiling float);
              SyringePump.axisMinmmPerMin := [("X", 144)] |} "X"
           {| mmPerRev := PyInt 8; stepsPerRev := PyInt 200;
              mmPerml := PyInt 0; maxmmPerMin := PyInt (-500) |} []).
  - reflexivity.
  - reflexivity.
Defined.

(** ** What the clamp lets through *)

(** Nothing compares greater than NaN. *)
Lemma nothing_above_nan (a : PyNum float) (r : float) :
  Prim2SF r = S754_nan -> py_lt a (PyFloat r) = false.
Proof.
  intros Hr. destruct a as [z | x].
  - change (py_lt (PyInt z) (PyFloat r)) with (Binary64.Zltb z r).
    unfold Binary64.Zltb. rewrite Hr. reflexivity.
  - change (py_lt (PyFloat x) (PyFloat r)) with (x <? r)%float.
    rewrite ltb_spec, Hr.
    destruct (Prim2SF x) as [s | s | | s m e]; try destruct s; reflexivity.
Qed.

(** X9: [min] on line 88 replaces the requested rate only when the ceiling
    compares smaller.  In every float arithmetic, with a truthy duration of
    any sign, on a configured axis, when the requested rate
    [(volume / duration) * 60 * mmPerml] and the distance can be computed
    and formatted and the ceiling does not compare smaller than the rate,
    the command is written with the requested rate itself as feed rate, a
    negative one included.  In IEEE double arithmetic a NaN rate is never
    replaced, whatever the ceiling: on scenario 1,
    [dispense("X", nan, 30)] writes [G91 G1 Xnan Fnan] and returns [nan]. *)
Theorem dispense_unclamped_any_duration :
  (forall (F : Type) (ops : FloatOps F) (R : FloatRepr F)
          (self : SyringePump.t F) (pumpId : string) (c : AxisConfig F)
          (volume d rate totalmm : PyNum F) (s : Serial),
     dict_get pumpId (SyringePump.syringePumpsConfig self) = Some c ->
     py_bool d = true ->
     SyringePump.requested_rate volume d (mmPerml c) = Ok rate ->
     py_lt (maxmmPerMin c) rate = false ->
     py_mul volume (mmPerml c) = Ok totalmm ->
     formattable totalmm ->
     formattable rate ->
     snd (SyringePump.dispense self pumpId volume (Some d) s)
       = (s ++ [SyringePump.motion_command pumpId totalmm rate])%list) /\
  (forall (R : FloatRepr float) (self : SyringePump.t float)
          (pumpId : string) (c : AxisConfig float)
          (volume d totalmm : PyNum float) (r : float) (s : Serial),
     dict_get pumpId (SyringePump.syringePumpsConfig self) = Some c ->
     py_bool d = true ->
     SyringePump.requested_rate volume d (mmPerml c) = Ok (PyFloat r) ->
     Prim2SF r = S754_nan ->
     py_mul volume (mmPerml c) = Ok totalmm ->
     formattable totalmm ->
     snd (SyringePump.dispense self pumpId volume (Some d) s)
       = (s ++ [SyringePump.motion_command pumpId totalmm (PyFloat r)])%list) /\
  (forall s : Serial,
     SyringePump.dispense (pump1 float) "X" (PyFloat nan) (Some (PyInt 30)) s
       = (Ok (PyFloat nan),
          (s ++ [("G91 G1 Xnan Fnan" ++ LF)%string])%list)).
Proof.
  assert (Hrate : forall (F : Type) (ops : FloatOps F) (R : FloatRepr F)
            (self : SyringePump.t F) (pumpId : string) (c : AxisConfig F)
            (volume d rate totalmm : PyNum F) (s : Serial),
            dict_get pumpId (SyringePump.syringePumpsConfig self) = Some c ->
            py_bool d = true ->
            SyringePump.requested_rate volume d (mmPerml c) = Ok rate ->
            py_lt (maxmmPerMin c) rate = false ->
            py_mul volume (mmPerml c) = Ok totalmm ->
            snd (SyringePump.dispense self pumpId volume (Some d) s)
              = (s ++ [SyringePump.motion_command pumpId totalmm rate])%list).
  { intros F ops R self pumpId c volume d rate totalmm s Hc Hd Hr Hlt Hmm.
    apply (dispense_writes self pumpId c volume (Some d) s rate totalmm Hc);
      [| exact Hmm].
    unfold SyringePump.dispense_speed, py_min. rewrite Hd, Hr, Hlt.
    reflexivity. }
  split; [| split].
  - intros F ops R self pumpId c volume d rate totalmm s Hc Hd Hr Hlt Hmm _ _.
    exact (Hrate F ops R self pumpId c volume d rate totalmm s Hc Hd Hr Hlt Hmm).
  - intros R self pumpId c volume d totalmm r s Hc Hd Hr Hnan Hmm _.
    exact (Hrate float binary64 R self pumpId c volume d (PyFloat r) totalmm s
             Hc Hd Hr (nothing_above_nan (maxmmPerMin c) r Hnan) Hmm).
  - intros s. vm_compute. reflexivity.
Qed.

Lemma dispense_unclamped_any_duration_witness :
  snd (SyringePump.dispense (pump1 float) "X" (PyInt (-2)) (Some (PyInt 30)) [])
    = ([] ++ [SyringePump.motion_command "X" (PyInt (-100))
                (PyFloat (-200)%float)])%list.
Proof.
  apply (proj1 dispense_unclamped_any_duration float binary64 binary64_repr
           (pump1 float) "X" (axisX float) (PyInt (-2)) (PyInt 30)
           (PyFloat (-200)%float) (PyInt (-100)) []).
  - reflexivity.
  - reflexivity.
  - vm_compute. reflexivity.
  - vm_compute. reflexivity.
  - reflexivity.
  - vm_compute. reflexivity.
  - exact I.
Defined.
